(** * Simulator for evaluating deduplication methods

    A shallow embedding of [src/simulations/simulator.py]: the error
    formula [relative_error], the value object [EstimatorConfig] and the
    class [Simulator] with its methods [__init__], [__call__], [aggregate],
    [run_all_and_aggregate] and [run_one].

    Conventions of the embedding.
    - A Python [float] / a pandas [float64] cell is an IEEE-754 binary64
      number, here a [spec_float] with the Standard Library's reference
      operations at precision 53 and maximal exponent 1024.
    - An [int64] column cell is a [nat] ([len(...)], [i + 1], [t] are never
      negative); it is converted to binary64 when it meets a float.
    - A [pd.DataFrame] is the list of its rows, in index order. The columns
      of a frame with a row have the types above. The frame [run_one] makes
      of an empty list of rows has columns of dtype [object], and so has the
      concatenation of a list of frames of which one is empty: its cells are
      then the Python numbers themselves, and arithmetic between two of its
      columns is Python's, cell by cell, which raises [ZeroDivisionError]
      on a zero divisor where float64 arithmetic gives NaN or an infinity.
      An estimate is a Python number. The aggregation of a frame without
      rows is a frame without rows.
    - [self] and the objects it references (the two random states, two
      distinct objects) are threaded through every method; a ghost field
      [calls] records the calls made to the collaborators, to [aggregate]
      and to the sinks, in program order.
    - The collaborators (set generator, sketch factory, sketch, noiser,
      estimator) are functions: they return their result, raise nothing, and
      leave the sketches and identifier collections they are given as they
      are, [add_ids] apart, which updates the sketch it is called on. A set
      generator yields finitely many collections. *)

From Stdlib Require Import ZArith Lia.
From Stdlib Require Import Floats.SpecFloat.
From stdpp Require Import base strings list gmap sorting.

(** ** Binary64 arithmetic *)

Module F64.

Definition prec : Z := 53%Z.
Definition emax : Z := 1024%Z.

Definition nan : spec_float := S754_nan.
Definition zero : spec_float := S754_zero false.

Definition add : spec_float -> spec_float -> spec_float := SFadd prec emax.
Definition sub : spec_float -> spec_float -> spec_float := SFsub prec emax.
Definition mul : spec_float -> spec_float -> spec_float := SFmul prec emax.
Definition div : spec_float -> spec_float -> spec_float := SFdiv prec emax.
Definition sqrt : spec_float -> spec_float := SFsqrt prec emax.

(** Conversion of an integer cell, rounding to nearest even. *)
Definition of_Z (z : Z) : spec_float := binary_normalize prec emax z 0%Z false.
Definition of_nat (n : nat) : spec_float := of_Z (Z.of_nat n).


Definition is_nan (x : spec_float) : bool :=
  match x with S754_nan => true | _ => false end.

Definition is_zero (x : spec_float) : bool :=
  match x with S754_zero _ => true | _ => false end.

(** Zeros and finite non-zero numbers: neither NaN nor an infinity. *)
Definition is_finite (x : spec_float) : bool :=
  match x with
  | S754_zero _ | S754_finite _ _ _ => true
  | S754_infinity _ | S754_nan => false
  end.

(** The sign bit of a number; [false] for NaN. *)
Definition signbit (x : spec_float) : bool :=
  match x with
  | S754_zero s | S754_infinity s | S754_finite s _ _ => s
  | S754_nan => false
  end.

End F64.

(** ** [relative_error] *)

(** [def relative_error(estimated, truth): return (estimated - truth) / truth] *)
Definition relative_error (estimated truth : spec_float) : spec_float :=
  F64.div (F64.sub estimated truth) truth.

(** ** Exceptions and results *)

Inductive Exception :=
| ValueError (msg : string)   (* raised by [pd.concat] on an empty list *)
| IndexError                  (* list index out of range *)
| OSError (errno : Z)         (* raised by a sink while it is written *)
| ZeroDivisionError.          (* Python's division by zero *)

Inductive Result (A : Type) :=
| Ok (a : A)
| Raise (e : Exception).
Arguments Ok {A} a.
Arguments Raise {A} e.

(** ** Collaborator interfaces *)

(** [cardinality_estimator_base.Sketch]: [sketch.add_ids(ids)] updates the
    sketch in place; the embedding returns the updated sketch. *)
Class SketchBase (Id Sketch : Type) := {
  add_ids : Sketch -> list Id -> Sketch
}.

(** [numpy.random.RandomState]: [rs.randint(high)] returns an integer drawn
    from [0, high) and advances the state. *)
Class RandomStateBase (RS : Type) := {
  randint : Z -> RS -> Z * RS;
  randint_range : forall high rs, (0 < high)%Z ->
    (0 <= fst (randint high rs) < high)%Z
}.

(** ** Tables *)

(** A row of the table built by [run_one]:
    columns [num_sets], [estimated_cardinality], [true_cardinality]. *)
Record TrialRow := {
  t_num_sets : nat;
  t_estimated_cardinality : spec_float;
  t_true_cardinality : nat
}.

(** The same row after [df[RUN_INDEX] = t]. *)
Record RunRow := {
  r_num_sets : nat;
  r_estimated_cardinality : spec_float;
  r_true_cardinality : nat;
  r_run_index : nat
}.

(** A row of the raw table, after [df[RELATIVE_ERROR] = ...]. *)
Record RawRow := {
  num_sets : nat;
  estimated_cardinality : spec_float;
  true_cardinality : nat;
  run_index : nat;
  rel_error : spec_float
}.

(** A row of the aggregated table: the group key and, for each of the three
    metrics, the pair [mean], [std]. *)
Record AggRow := {
  agg_num_sets : nat;
  estimated_cardinality_mean : spec_float;
  estimated_cardinality_std : spec_float;
  true_cardinality_mean : spec_float;
  true_cardinality_std : spec_float;
  relative_error_mean : spec_float;
  relative_error_std : spec_float
}.

(** What a sink receives from [to_csv]. *)
Inductive Csv :=
| CsvRaw (df : list RawRow)
| CsvAgg (df : list AggRow).

(** A writable file handle: writing a table to it succeeds or raises. *)
Record FileHandle := {
  fh_write : Csv -> option Exception
}.

(** ** The pandas operations the simulator uses

    These follow the behaviour of pandas for the calls the source makes:
    [pd.concat(objs, ignore_index=True)], arithmetic between two columns of
    one frame, and [groupby(key).agg(['mean', 'std'])], whose group
    statistics leave missing values (NaN) out. *)

Module Pandas.

(** The dtype of the metric columns of a frame: [float64] and [int64], or
    [object], whose cells are Python objects. *)
Inductive dtype := numeric | object.

(** [pd.concat(objs, ignore_index=True)]: the rows of the frames in order;
    an empty list of frames is refused. *)
Definition concat {A} (objs : list (list A)) : Result (list A) :=
  match objs with
  | [] => Raise (ValueError "No objects to concatenate")
  | _ => Ok (List.concat objs)
  end.

(** The dtype of the columns of [pd.concat(objs)], the common dtype of the
    frames' columns: a frame made of an empty list of rows has [object]
    columns, and makes the columns of the result [object] columns. *)
Definition concat_dtype {A} (objs : list (list A)) : dtype :=
  if existsb (fun df => match df with [] => true | _ => false end) objs
  then object else numeric.

(** [a - b] and [a / b] on two float64 columns of the same frame. *)
Definition series_sub (a b : list spec_float) : list spec_float :=
  zip_with F64.sub a b.
Definition series_div (a b : list spec_float) : list spec_float :=
  zip_with F64.div a b.

(** The keys of [groupby(key)]: each distinct value once, ascending. *)
Definition group_keys (keys : list nat) : list nat :=
  merge_sort le (remove_dups keys).

(** Group mean: one pass with the number of observations and their sum,
    a compensated (Kahan) sum that carries the rounding error of each
    addition into the next; a compensation that is NaN (after an infinite
    cell) is reset. NaN cells are not observations. *)
Record mean_acc := {
  mean_nobs : nat;
  mean_sumx : spec_float;
  mean_compensation : spec_float
}.

Definition mean_step (acc : mean_acc) (val : spec_float) : mean_acc :=
  if F64.is_nan val then acc else
  let y := F64.sub val (mean_compensation acc) in
  let t := F64.add (mean_sumx acc) y in
  let compensation := F64.sub (F64.sub t (mean_sumx acc)) y in
  {| mean_nobs := S (mean_nobs acc);
     mean_sumx := t;
     mean_compensation :=
       if F64.is_nan compensation then F64.zero else compensation |}.

Definition mean_init : mean_acc :=
  {| mean_nobs := 0; mean_sumx := F64.zero; mean_compensation := F64.zero |}.

Definition mean (values : list spec_float) : spec_float :=
  let acc := fold_left mean_step values mean_init in
  match mean_nobs acc with
  | O => F64.nan
  | _ => F64.div (mean_sumx acc) (F64.of_nat (mean_nobs acc))
  end.

(** Group variance with [ddof] delta degrees of freedom: one pass with the
    number of observations, the running mean and the running sum of
    squared deviations from it; NaN cells are not observations. *)
Record var_acc := {
  var_nobs : nat;
  var_mean : spec_float;
  var_ssqdm : spec_float
}.

Definition var_step (acc : var_acc) (val : spec_float) : var_acc :=
  if F64.is_nan val then acc else
  let nobs := S (var_nobs acc) in
  let oldmean := var_mean acc in
  let mean := F64.add oldmean (F64.div (F64.sub val oldmean) (F64.of_nat nobs)) in
  {| var_nobs := nobs;
     var_mean := mean;
     var_ssqdm := F64.add (var_ssqdm acc)
                    (F64.mul (F64.sub val mean) (F64.sub val oldmean)) |}.

Definition var_init : var_acc :=
  {| var_nobs := 0; var_mean := F64.zero; var_ssqdm := F64.zero |}.

Definition var (ddof : nat) (values : list spec_float) : spec_float :=
  let acc := fold_left var_step values var_init in
  if (var_nobs acc <=? ddof)%nat then F64.nan
  else F64.div (var_ssqdm acc) (F64.of_nat (var_nobs acc - ddof)).

(** ['std']: the square root of the variance with [ddof = 1]. *)
Definition std (values : list spec_float) : spec_float :=
  F64.sqrt (var 1 values).

End Pandas.

(** ** The simulator *)

Section Simulator.

Context {Id : Type} `{Countable Id}.
Context {Sketch RandomState : Type}.
Context `{!SketchBase Id Sketch} `{!RandomStateBase RandomState}.

(** [EstimatorConfig = namedtuple('EstimatorConfig',
      ['sketch_factory', 'estimator', 'noiser'])].
    [noiser] is [None] when no noiser is configured; a noiser object is a
    plain callable (it defines neither [__bool__] nor [__len__]), so the
    test [if noiser:] is the test that one is present. *)
Record EstimatorConfig := {
  sketch_factory : Z -> Sketch;
  estimator : list Sketch -> spec_float;
  noiser : option (Sketch -> Sketch)
}.

(** The calls a simulation makes to its collaborators, to its own method
    [aggregate] and to its sinks. *)
Inductive Call :=
| CallSetGeneratorFactory
| CallRandint (high seed : Z)
| CallSketchFactory (seed : Z)
| CallAddIds (sketch : Sketch) (ids : list Id)
| CallNoiser (sketch : Sketch)
| CallEstimator (sketches : list Sketch)
| CallAggregate (df : list RawRow)
| CallToCsv (payload : Csv).

(** The attributes of [self], with the current states of the two random
    state objects (two distinct objects), and the ghost list [calls].
    A set generator is a finite sequence of identifier collections; the
    factory is given the set random state, which the generator advances
    while it is consumed. *)
Record Simulator := {
  num_runs : Z;
  set_generator_factory : RandomState -> list (list Id) * RandomState;
  estimator_config : EstimatorConfig;
  set_random_state : RandomState;
  sketch_random_state : RandomState;
  file_handle_raw : option FileHandle;
  file_handle_agg : option FileHandle;
  calls : list Call
}.

Definition with_set_random_state (rs : RandomState) (self : Simulator) :=
  {| num_runs := num_runs self;
     set_generator_factory := set_generator_factory self;
     estimator_config := estimator_config self;
     set_random_state := rs;
     sketch_random_state := sketch_random_state self;
     file_handle_raw := file_handle_raw self;
     file_handle_agg := file_handle_agg self;
     calls := calls self |}.

Definition with_sketch_random_state (rs : RandomState) (self : Simulator) :=
  {| num_runs := num_runs self;
     set_generator_factory := set_generator_factory self;
     estimator_config := estimator_config self;
     set_random_state := set_random_state self;
     sketch_random_state := rs;
     file_handle_raw := file_handle_raw self;
     file_handle_agg := file_handle_agg self;
     calls := calls self |}.

Definition with_calls (cs : list Call) (self : Simulator) :=
  {| num_runs := num_runs self;
     set_generator_factory := set_generator_factory self;
     estimator_config := estimator_config self;
     set_random_state := set_random_state self;
     sketch_random_state := sketch_random_state self;
     file_handle_raw := file_handle_raw self;
     file_handle_agg := file_handle_agg self;
     calls := cs |}.

Definition with_file_handles (raw agg : option FileHandle) (self : Simulator) :=
  {| num_runs := num_runs self;
     set_generator_factory := set_generator_factory self;
     estimator_config := estimator_config self;
     set_random_state := set_random_state self;
     sketch_random_state := sketch_random_state self;
     file_handle_raw := raw;
     file_handle_agg := agg;
     calls := calls self |}.

(** [Simulator.__init__].  [np.random.RandomState()] without a seed is
    seeded from the operating system: [entropy] supplies the two states
    such calls would return. *)
Definition init (num_runs : Z)
    (set_generator_factory : RandomState -> list (list Id) * RandomState)
    (estimator_config : EstimatorConfig)
    (sketch_random_state set_random_state : option RandomState)
    (file_handle_raw file_handle_agg : option FileHandle)
    (entropy : RandomState * RandomState) : Simulator :=
  let sketch_random_state :=
    match sketch_random_state with None => fst entropy | Some rs => rs end in
  let set_random_state :=
    match set_random_state with None => snd entropy | Some rs => rs end in
  {| num_runs := num_runs;
     set_generator_factory := set_generator_factory;
     estimator_config := estimator_config;
     set_random_state := set_random_state;
     sketch_random_state := sketch_random_state;
     file_handle_raw := file_handle_raw;
     file_handle_agg := file_handle_agg;
     calls := [] |}.

(** *** The monad of methods: state [self], result or exception *)

Definition M (A : Type) : Type := Simulator -> Result A * Simulator.

#[local] Instance M_ret : MRet M := fun A a self => (Ok a, self).
#[local] Instance M_bind : MBind M := fun A B f m self =>
  match m self with
  | (Ok a, self') => f a self'
  | (Raise e, self') => (Raise e, self')
  end.

Definition raise {A} (e : Exception) : M A := fun self => (Raise e, self).
Definition gets {A} (f : Simulator -> A) : M A := fun self => (Ok (f self), self).
Definition modify (f : Simulator -> Simulator) : M unit := fun self => (Ok tt, f self).
Definition record (c : Call) : M unit :=
  modify (fun self => with_calls (calls self ++ [c]) self).

(** [xs[i]] on a Python list, for [i >= 0]. *)
Definition index {A} (xs : list A) (i : nat) : M A :=
  match xs !! i with
  | Some x => mret x
  | None => raise IndexError
  end.

(** *** Calls to the collaborators *)

(** [self.set_generator_factory(self.set_random_state)] *)
Definition call_set_generator_factory : M (list (list Id)) :=
  factory ← gets set_generator_factory;
  rs ← gets set_random_state;
  let '(set_generator, rs') := factory rs in
  modify (with_set_random_state rs');;
  record CallSetGeneratorFactory;;
  mret set_generator.

(** [self.sketch_random_state.randint(high)] *)
Definition call_randint (high : Z) : M Z :=
  rs ← gets sketch_random_state;
  let '(seed, rs') := randint high rs in
  modify (with_sketch_random_state rs');;
  record (CallRandint high seed);;
  mret seed.

(** [self.estimator_config.sketch_factory(seed)] *)
Definition call_sketch_factory (seed : Z) : M Sketch :=
  config ← gets estimator_config;
  record (CallSketchFactory seed);;
  mret (sketch_factory config seed).

(** [sketch.add_ids(campaign_ids)] *)
Definition call_add_ids (sketch : Sketch) (campaign_ids : list Id) : M Sketch :=
  record (CallAddIds sketch campaign_ids);;
  mret (add_ids sketch campaign_ids).

(** [noiser(s)] *)
Definition call_noiser (noiser : Sketch -> Sketch) (s : Sketch) : M Sketch :=
  record (CallNoiser s);;
  mret (noiser s).

(** [estimator(sketches)] *)
Definition call_estimator (estimator : list Sketch -> spec_float)
    (sketches : list Sketch) : M spec_float :=
  record (CallEstimator sketches);;
  mret (estimator sketches).

(** [df.to_csv(file_handle, ...)] *)
Definition call_to_csv (payload : Csv) (file_handle : FileHandle) : M unit :=
  record (CallToCsv payload);;
  match fh_write file_handle payload with
  | None => mret tt
  | Some e => raise e
  end.

(** *** [run_one] *)

(** [for campaign_ids in set_generator: ...]: the loop that builds the
    sketches and keeps the actual ids. *)
Fixpoint build_sketches (sketch_random_seed : Z)
    (set_generator : list (list Id))
    (sketches : list Sketch) (actual_ids : list (list Id))
    : M (list Sketch * list (list Id)) :=
  match set_generator with
  | [] => mret (sketches, actual_ids)
  | campaign_ids :: set_generator =>
      let actual_ids := actual_ids ++ [campaign_ids] in
      sketch ← call_sketch_factory sketch_random_seed;
      sketch ← call_add_ids sketch campaign_ids;
      let sketches := sketches ++ [sketch] in
      build_sketches sketch_random_seed set_generator sketches actual_ids
  end.

(** [[noiser(s) for s in sketches]] *)
Fixpoint noise_sketches (noiser : Sketch -> Sketch) (sketches : list Sketch)
    : M (list Sketch) :=
  match sketches with
  | [] => mret []
  | s :: sketches =>
      s' ← call_noiser noiser s;
      rest ← noise_sketches noiser sketches;
      mret (s' :: rest)
  end.

(** [for i in range(len(sketches)): ...]: the loop that estimates the
    cardinality for 1, 2, ..., n sets, with the running union. *)
Fixpoint estimate_prefixes (estimator : list Sketch -> spec_float)
    (sketches : list Sketch) (actual_ids : list (list Id))
    (range : list nat) (true_union : gset Id) (metrics : list TrialRow)
    : M (list TrialRow) :=
  match range with
  | [] => mret metrics
  | i :: range =>
      estimated_cardinality ← call_estimator estimator (take (i + 1) sketches);
      ids ← index actual_ids i;
      let true_union := true_union ∪ list_to_set ids in
      let metrics :=
        metrics ++ [ {| t_num_sets := i + 1;
                        t_estimated_cardinality := estimated_cardinality;
                        t_true_cardinality := size true_union |} ] in
      estimate_prefixes estimator sketches actual_ids range true_union metrics
  end.

Definition run_one : M (list TrialRow) :=
  set_generator ← call_set_generator_factory;
  sketch_random_seed ← call_randint (2 ^ 32 - 1);
  '(sketches, actual_ids) ← build_sketches sketch_random_seed set_generator [] [];
  noiser ← gets (fun self => noiser (estimator_config self));
  sketches ← match noiser with
             | Some noiser => noise_sketches noiser sketches
             | None => mret sketches
             end;
  estimator ← gets (fun self => estimator (estimator_config self));
  estimate_prefixes estimator sketches actual_ids
    (seq 0 (length sketches)) ∅ [].

(** *** [aggregate] *)

(** The rows of the group [key] of [df.groupby(NUM_SETS)]. *)
Definition group_rows (key : nat) (df : list RawRow) : list RawRow :=
  filter (fun row => num_sets row = key) df.

(** [df.groupby(NUM_SETS).agg({ESTIMATED_CARDINALITY: ['mean', 'std'],
      TRUE_CARDINALITY: ['mean', 'std'], RELATIVE_ERROR: ['mean', 'std']})].
    The method does not use [self]. *)
Definition aggregate (df : list RawRow) : list AggRow :=
  (fun key =>
     let group := group_rows key df in
     let estimated := estimated_cardinality <$> group in
     let truth := (fun row => F64.of_nat (true_cardinality row)) <$> group in
     let errors := rel_error <$> group in
     {| agg_num_sets := key;
        estimated_cardinality_mean := Pandas.mean estimated;
        estimated_cardinality_std := Pandas.std estimated;
        true_cardinality_mean := Pandas.mean truth;
        true_cardinality_std := Pandas.std truth;
        relative_error_mean := Pandas.mean errors;
        relative_error_std := Pandas.std errors |})
  <$> Pandas.group_keys (num_sets <$> df).

(** [self.aggregate(df)] *)
Definition call_aggregate (df : list RawRow) : M (list AggRow) :=
  record (CallAggregate df);;
  mret (aggregate df).

(** *** [run_all_and_aggregate] *)

(** [df[RUN_INDEX] = t] *)
Definition set_run_index (t : nat) (df : list TrialRow) : list RunRow :=
  (fun row =>
     {| r_num_sets := t_num_sets row;
        r_estimated_cardinality := t_estimated_cardinality row;
        r_true_cardinality := t_true_cardinality row;
        r_run_index := t |}) <$> df.

(** [for t in range(self.num_runs): ...] *)
Fixpoint run_trials (range : list nat) (dfs : list (list RunRow))
    : M (list (list RunRow)) :=
  match range with
  | [] => mret dfs
  | t :: range =>
      df ← run_one;
      let df := set_run_index t df in
      run_trials range (dfs ++ [df])
  end.

(** [relative_error] applied to two float64 columns. *)
Definition relative_error_series (estimated truth : list spec_float)
    : list spec_float :=
  Pandas.series_div (Pandas.series_sub estimated truth) truth.

(** [relative_error(df[ESTIMATED_CARDINALITY], df[TRUE_CARDINALITY])] on the
    columns of [df], which have dtype [dtype]. Between [float64] and [int64]
    columns the division is IEEE 754's and raises nothing. Between [object]
    columns it is Python's [/] on each pair of cells, which raises on a
    [true_cardinality] of 0 and is the binary64 division otherwise. *)
Definition relative_error_of_columns (dtype : Pandas.dtype) (df : list RunRow)
    : Result (list spec_float) :=
  let estimated := r_estimated_cardinality <$> df in
  let truth := (fun row => F64.of_nat (r_true_cardinality row)) <$> df in
  match dtype with
  | Pandas.numeric => Ok (relative_error_series estimated truth)
  | Pandas.object =>
      if existsb (fun row => Nat.eqb (r_true_cardinality row) 0) df
      then Raise ZeroDivisionError
      else Ok (relative_error_series estimated truth)
  end.

(** [df[RELATIVE_ERROR] = column] *)
Definition set_relative_error (df : list RunRow) (column : list spec_float)
    : list RawRow :=
  zip_with (fun row value =>
     {| num_sets := r_num_sets row;
        estimated_cardinality := r_estimated_cardinality row;
        true_cardinality := r_true_cardinality row;
        run_index := r_run_index row;
        rel_error := value |}) df column.

Definition lift {A} (r : Result A) : M A := fun self => (r, self).

Definition run_all_and_aggregate : M (list RawRow * list AggRow) :=
  n ← gets num_runs;
  dfs ← run_trials (seq 0 (Z.to_nat n)) [];
  df ← lift (Pandas.concat dfs);
  column ← lift (relative_error_of_columns (Pandas.concat_dtype dfs) df);
  let df := set_relative_error df column in
  df_agg ← call_aggregate df;
  file_handle_raw ← gets file_handle_raw;
  match file_handle_raw with
  | Some file_handle => call_to_csv (CsvRaw df) file_handle
  | None => mret tt
  end;;
  file_handle_agg ← gets file_handle_agg;
  match file_handle_agg with
  | Some file_handle => call_to_csv (CsvAgg df_agg) file_handle
  | None => mret tt
  end;;
  mret (df, df_agg).

(** [Simulator.__call__] *)
Definition call : M (list RawRow * list AggRow) := run_all_and_aggregate.

End Simulator.

Arguments EstimatorConfig : clear implicits.
Arguments Call : clear implicits.
Arguments Simulator : clear implicits.

(** ** A concrete set of collaborators

    Identifiers are numbers. A sketch keeps the seed it was built with and
    the identifiers inserted into it, so that an exact estimator can count
    them. The random state is a linear congruential generator. *)

Module Demo.

Record ExactSketch := {
  sk_seed : Z;
  sk_ids : list nat
}.

#[global] Instance exact_sketch : SketchBase nat ExactSketch := {|
  add_ids sketch ids :=
    {| sk_seed := sk_seed sketch; sk_ids := sk_ids sketch ++ ids |}
|}.

Definition lcg_next (rs : Z) : Z :=
  ((rs * 6364136223846793005 + 1442695040888963407) mod 2 ^ 64)%Z.

#[global, refine] Instance lcg : RandomStateBase Z := {|
  randint high rs := ((rs mod high)%Z, lcg_next rs)
|}.
Proof. intros high rs Hhigh. simpl. apply Z.mod_pos_bound. exact Hhigh. Defined.

Definition new_sketch (seed : Z) : ExactSketch :=
  {| sk_seed := seed; sk_ids := [] |}.

(** The number of distinct identifiers in the sketches. *)
Definition exact_estimator (sketches : list ExactSketch) : spec_float :=
  F64.of_nat (size (⋃ ((fun s => list_to_set (sk_ids s)) <$> sketches) : gset nat)).

(** A noiser that adds the phantom identifier [0] to a sketch. *)
Definition phantom_noiser (sketch : ExactSketch) : ExactSketch :=
  {| sk_seed := sk_seed sketch; sk_ids := 0%nat :: sk_ids sketch |}.

Definition exact_config : EstimatorConfig ExactSketch :=
  {| sketch_factory := new_sketch;
     estimator := exact_estimator;
     noiser := None |}.

Definition noised_config : EstimatorConfig ExactSketch :=
  {| sketch_factory := new_sketch;
     estimator := exact_estimator;
     noiser := Some phantom_noiser |}.

(** A generator factory that plays a script: the random state counts the
    generators made so far, and the generator made in state [rs] yields
    the sets of entry [rs] of the script (none beyond its end). *)
Definition scripted (script : list (list (list nat))) (rs : Z)
    : list (list nat) * Z :=
  (default [] (script !! Z.to_nat rs), (rs + 1)%Z).

Definition simulator (num_runs : Z) (script : list (list (list nat)))
    (config : EstimatorConfig ExactSketch)
    (file_handle_raw file_handle_agg : option FileHandle)
    : Simulator nat ExactSketch Z :=
  init num_runs (scripted script) config (Some 42%Z) (Some 0%Z)
    file_handle_raw file_handle_agg (0%Z, 0%Z).

(** A handle that accepts every write, and one that refuses every write. *)
Definition good_handle : FileHandle := {| fh_write := fun _ => None |}.
Definition full_disk : FileHandle := {| fh_write := fun _ => Some (OSError 28) |}.

End Demo.

(** ** What a trial is expected to do

    Closed forms for the outcome of the loops of [run_one] and
    [run_all_and_aggregate], in terms of the sets a generator yields and of
    the seed drawn for the trial. *)

Section Specification.

Context {Id : Type} `{Countable Id}.
Context {Sketch RandomState : Type}.
Context `{!SketchBase Id Sketch} `{!RandomStateBase RandomState}.

Abbreviation Config := (EstimatorConfig Sketch).
Abbreviation Call := (Call Id Sketch).
Abbreviation Sim := (Simulator Id Sketch RandomState).

(** The bound passed to [randint]. *)
Definition seed_bound : Z := (2 ^ 32 - 1)%Z.

(** One sketch per set, each made by the factory from the trial's seed. *)
Definition built_sketches (config : Config) (seed : Z)
    (sets : list (list Id)) : list Sketch :=
  (fun ids => add_ids (sketch_factory config seed) ids) <$> sets.

(** The sketches handed to the estimator. *)
Definition final_sketches (config : Config) (sketches : list Sketch)
    : list Sketch :=
  match noiser config with
  | Some noiser => noiser <$> sketches
  | None => sketches
  end.

Definition build_calls (config : Config) (seed : Z)
    (sets : list (list Id)) : list Call :=
  sets ≫= (fun ids =>
    [CallSketchFactory seed; CallAddIds (sketch_factory config seed) ids]).

Definition noise_calls (config : Config) (sketches : list Sketch)
    : list Call :=
  match noiser config with
  | Some _ => CallNoiser <$> sketches
  | None => []
  end.

Definition estimate_calls (sketches : list Sketch) (range : list nat)
    : list Call :=
  (fun i => CallEstimator (take (i + 1) sketches)) <$> range.

(** The union [S1 ∪ ... ∪ Si] of the first [i] sets. *)
Definition union_of_prefix (i : nat) (sets : list (list Id)) : gset Id :=
  ⋃ (list_to_set <$> take i sets).

Definition prefix_row (estimator : list Sketch -> spec_float)
    (sketches : list Sketch) (sets : list (list Id)) (i : nat) : TrialRow :=
  {| t_num_sets := i + 1;
     t_estimated_cardinality := estimator (take (i + 1) sketches);
     t_true_cardinality := size (union_of_prefix (i + 1) sets) |}.

Definition trial_table (config : Config) (seed : Z)
    (sets : list (list Id)) : list TrialRow :=
  prefix_row (estimator config)
    (final_sketches config (built_sketches config seed sets)) sets
  <$> seq 0 (length sets).

Definition trial_calls (config : Config) (seed : Z)
    (sets : list (list Id)) : list Call :=
  [CallSetGeneratorFactory; CallRandint seed_bound seed]
  ++ build_calls config seed sets
  ++ noise_calls config (built_sketches config seed sets)
  ++ estimate_calls (final_sketches config (built_sketches config seed sets))
       (seq 0 (length sets)).

(** The seed and the sets of each of [n] consecutive trials, from the
    states of the two random state objects before the first of them. *)
Fixpoint trial_inputs
    (factory : RandomState -> list (list Id) * RandomState)
    (n : nat) (set_rs sketch_rs : RandomState)
    : list (Z * list (list Id)) :=
  match n with
  | O => []
  | S n =>
      let '(sets, set_rs) := factory set_rs in
      let '(seed, sketch_rs) := randint seed_bound sketch_rs in
      (seed, sets) :: trial_inputs factory n set_rs sketch_rs
  end.

(** The states of the two random state objects after [n] trials. *)
Fixpoint random_states_after
    (factory : RandomState -> list (list Id) * RandomState)
    (n : nat) (set_rs sketch_rs : RandomState)
    : RandomState * RandomState :=
  match n with
  | O => (set_rs, sketch_rs)
  | S n =>
      random_states_after factory n
        (snd (factory set_rs)) (snd (randint seed_bound sketch_rs))
  end.

(** The frames of consecutive trials, the first of them numbered [t]. *)
Fixpoint trial_frames (config : Config) (t : nat)
    (inputs : list (Z * list (list Id))) : list (list RunRow) :=
  match inputs with
  | [] => []
  | (seed, sets) :: inputs =>
      set_run_index t (trial_table config seed sets)
      :: trial_frames config (S t) inputs
  end.

Definition trials_calls (config : Config)
    (inputs : list (Z * list (list Id))) : list Call :=
  inputs ≫= (fun input => trial_calls config (fst input) (snd input)).

(** A raw row without its [relative_error] column. *)
Definition drop_relative_error (row : RawRow) : RunRow :=
  {| r_num_sets := num_sets row;
     r_estimated_cardinality := estimated_cardinality row;
     r_true_cardinality := true_cardinality row;
     r_run_index := run_index row |}.

(** The raw table made from the concatenated frames. *)
Definition with_relative_error (row : RunRow) : RawRow :=
  {| num_sets := r_num_sets row;
     estimated_cardinality := r_estimated_cardinality row;
     true_cardinality := r_true_cardinality row;
     run_index := r_run_index row;
     rel_error := relative_error (r_estimated_cardinality row)
                    (F64.of_nat (r_true_cardinality row)) |}.

(** Appending calls to the ghost list of [self]. *)
Definition log (cs : list Call) (self : Sim) : Sim :=
  with_calls (calls self ++ cs) self.

(** The state of [self] after a trial that drew [seed] and the sets
    [sets], the two random states having become [set_rs] and [sketch_rs]. *)
Definition after_trial (set_rs sketch_rs : RandomState) (seed : Z)
    (sets : list (list Id)) (self : Sim) : Sim :=
  log (trial_calls (estimator_config self) seed sets)
    (with_sketch_random_state sketch_rs (with_set_random_state set_rs self)).

(** The inputs of the [n] trials that [self] runs next. *)
Definition next_inputs (n : nat) (self : Sim) : list (Z * list (list Id)) :=
  trial_inputs (set_generator_factory self) n
    (set_random_state self) (sketch_random_state self).

(** The state of [self] after these [n] trials. *)
Definition after_trials (n : nat) (self : Sim) : Sim :=
  let rs := random_states_after (set_generator_factory self) n
              (set_random_state self) (sketch_random_state self) in
  log (trials_calls (estimator_config self) (next_inputs n self))
    (with_sketch_random_state (snd rs) (with_set_random_state (fst rs) self)).

(** A trial whose generator yields no set: its frame is empty. *)
Definition yields_no_set (input : Z * list (list Id)) : bool :=
  match snd input with [] => true | _ => false end.

(** A trial whose first set is empty: the [true_cardinality] of its first
    row is 0. *)
Definition first_set_empty (input : Z * list (list Id)) : bool :=
  match snd input with [] :: _ => true | _ => false end.

(** The trials for which the division of [relative_error] raises: one of
    them yields no set, which makes the columns [object] columns, and one
    of them has a row whose [true_cardinality] is 0. *)
Definition division_raises (inputs : list (Z * list (list Id))) : bool :=
  existsb yields_no_set inputs && existsb first_set_empty inputs.

(** The same test on the frames of the trials. *)
Definition has_empty_frame (frames : list (list RunRow)) : bool :=
  existsb (fun df => match df with [] => true | _ => false end) frames.

Definition has_zero_truth (df : list RunRow) : bool :=
  existsb (fun row => Nat.eqb (r_true_cardinality row) 0) df.

(** The outcome of writing [payload] to an optional sink. *)
Definition write_sink (file_handle : option FileHandle) (payload : Csv)
    (self : Sim) : Result unit * Sim :=
  match file_handle with
  | None => (Ok tt, self)
  | Some file_handle =>
      (match fh_write file_handle payload with
       | None => Ok tt
       | Some e => Raise e
       end, log [CallToCsv payload] self)
  end.

(** [e] is raised by one of the sinks of [self] when it is written. *)
Definition raised_by_sink (self : Sim) (e : Exception) : Prop :=
  exists file_handle payload,
    (file_handle_raw self = Some file_handle \/
     file_handle_agg self = Some file_handle) /\
    fh_write file_handle payload = Some e.

(** The calls that write the two tables to the sinks configured in [self],
    when no write fails. *)
Definition to_csv_calls (self : Sim) (df : list RawRow)
    (df_agg : list AggRow) : list Call :=
  match file_handle_raw self with
  | Some _ => [CallToCsv (CsvRaw df)]
  | None => []
  end ++
  match file_handle_agg self with
  | Some _ => [CallToCsv (CsvAgg df_agg)]
  | None => []
  end.

(** The exception, if any, with which a sink answers a write. *)
Definition write_error (file_handle : option FileHandle) (payload : Csv)
    : option Exception :=
  match file_handle with
  | Some file_handle => fh_write file_handle payload
  | None => None
  end.

(** The same simulator without its two sinks. *)
Definition without_sinks (self : Sim) : Sim :=
  with_file_handles None None self.

Definition is_to_csv (c : Call) : bool :=
  match c with CallToCsv _ => true | _ => false end.

Definition is_aggregate (c : Call) : bool :=
  match c with CallAggregate _ => true | _ => false end.

Definition is_randint (c : Call) : bool :=
  match c with CallRandint _ _ => true | _ => false end.

Definition is_sketch_factory (c : Call) : bool :=
  match c with CallSketchFactory _ => true | _ => false end.

Definition is_add_ids (c : Call) : bool :=
  match c with CallAddIds _ _ => true | _ => false end.

Definition is_noiser (c : Call) : bool :=
  match c with CallNoiser _ => true | _ => false end.

End Specification.

(** ** The statistics of a column *)

(** The values of a column that are not NaN. *)
Definition dropna (values : list spec_float) : list spec_float :=
  filter (fun v => F64.is_nan v = false) values.

(** The arithmetic mean of a column, as the specification words it: the sum
    of its cells, added from left to right, over their number; NaN for an
    empty column, as [0 / 0]. *)
Definition arithmetic_mean (values : list spec_float) : spec_float :=
  F64.div (fold_left F64.add values F64.zero) (F64.of_nat (length values)).




(** The sum of squared deviations of the cells from their running mean,
    accumulated cell by cell together with the count and the mean. *)
Definition deviation_step (acc : nat * spec_float * spec_float)
    (val : spec_float) : nat * spec_float * spec_float :=
  let '(n, mean, ssqdm) := acc in
  let mean' := F64.add mean (F64.div (F64.sub val mean) (F64.of_nat (S n))) in
  (S n, mean', F64.add ssqdm (F64.mul (F64.sub val mean') (F64.sub val mean))).

Definition squared_deviations (values : list spec_float) : spec_float :=
  snd (fold_left deviation_step values (0%nat, F64.zero, F64.zero)).

(** The standard deviation with the [N - 1] denominator. *)
Definition sample_std (values : list spec_float) : spec_float :=
  F64.sqrt (F64.div (squared_deviations values)
                    (F64.of_nat (length values - 1))).

(** * Properties *)

(** ** Binary64 facts *)

Section F64Facts.

Lemma shr_1_nonneg mrs : (0 <= shr_m mrs)%Z -> (0 <= shr_m (shr_1 mrs))%Z.
Proof.
  destruct mrs as [m r s]. simpl.
  destruct m as [|p|p]; [simpl; lia| |lia].
  intros _. destruct p; simpl; lia.
Qed.

Lemma iter_pos_shr_1_nonneg p mrs :
  (0 <= shr_m mrs)%Z -> (0 <= shr_m (SpecFloat.iter_pos shr_1 p mrs))%Z.
Proof.
  revert mrs. induction p as [p IH|p IH|]; intros mrs Hm; simpl.
  - apply IH, IH, shr_1_nonneg, Hm.
  - apply IH, IH, Hm.
  - apply shr_1_nonneg, Hm.
Qed.

Lemma shr_record_of_loc_m m l : shr_m (shr_record_of_loc m l) = m.
Proof. destruct l as [|[]]; reflexivity. Qed.

Lemma shr_fexp_nonneg prec emax m e l :
  (0 <= m)%Z -> (0 <= shr_m (fst (shr_fexp prec emax m e l)))%Z.
Proof.
  intros Hm. unfold shr_fexp, shr.
  destruct (_ - e)%Z; simpl; rewrite ?shr_record_of_loc_m; try lia.
  apply iter_pos_shr_1_nonneg. rewrite shr_record_of_loc_m. lia.
Qed.

Lemma round_nearest_even_nonneg m l :
  (0 <= m)%Z -> (0 <= round_nearest_even m l)%Z.
Proof.
  intros Hm. unfold round_nearest_even.
  destruct l as [|[]]; try lia. destruct (Z.even m); lia.
Qed.

Lemma binary_round_aux_not_nan prec emax sx mx ex lx :
  (0 <= mx)%Z -> binary_round_aux prec emax sx mx ex lx <> S754_nan.
Proof.
  intros Hm. unfold binary_round_aux.
  pose proof (shr_fexp_nonneg prec emax mx ex lx Hm) as H1.
  destruct (shr_fexp prec emax mx ex lx) as [mrs' e']. simpl in H1.
  pose proof (shr_fexp_nonneg prec emax
    (round_nearest_even (shr_m mrs') (loc_of_shr_record mrs')) e' loc_Exact
    (round_nearest_even_nonneg _ _ H1)) as H2.
  destruct (shr_fexp prec emax _ e' loc_Exact) as [mrs'' e'']. simpl in H2.
  destruct (shr_m mrs''); [discriminate| |lia].
  destruct (_ <=? _)%Z; discriminate.
Qed.


Lemma of_nat_0 : F64.of_nat 0 = S754_zero false.
Proof. reflexivity. Qed.

(** Division of the difference by a zero [truth]. *)
Lemma relative_error_truth_zero estimated :
  relative_error estimated (S754_zero false) =
    if F64.is_nan estimated || F64.is_zero estimated then S754_nan
    else S754_infinity (F64.signbit estimated).
Proof.
  destruct estimated as [[]|[]| |[] m e]; reflexivity.
Qed.

End F64Facts.

(** ** Integer cells below [2^53] are exact binary64 numbers *)

Section ExactIntegers.

Lemma digits2_pos_lower p :
  (2 ^ (Zpos (digits2_pos p) - 1) <= Zpos p)%Z.
Proof.
  induction p as [p IH|p IH|]; cbn [digits2_pos]; [| |done].
  - rewrite Pos2Z.inj_succ.
    replace (Z.succ (Zpos (digits2_pos p)) - 1)%Z
      with (Z.succ (Zpos (digits2_pos p) - 1)) by lia.
    rewrite Z.pow_succ_r by lia. lia.
  - rewrite Pos2Z.inj_succ.
    replace (Z.succ (Zpos (digits2_pos p)) - 1)%Z
      with (Z.succ (Zpos (digits2_pos p) - 1)) by lia.
    rewrite Z.pow_succ_r by lia. lia.
Qed.

Lemma digits2_pos_le p k :
  (0 <= k)%Z -> (Zpos p < 2 ^ k)%Z -> (Zpos (digits2_pos p) <= k)%Z.
Proof.
  intros Hk Hp.
  destruct (Z_le_gt_dec (Zpos (digits2_pos p)) k) as [|Hgt]; [done|].
  pose proof (digits2_pos_lower p) as Hlow.
  pose proof (Z.pow_le_mono_r 2 k (Zpos (digits2_pos p) - 1)) as Hmono.
  lia.
Qed.

Lemma digits2_pos_iter_xO p k :
  Zpos (digits2_pos (Pos.iter xO p k)) = (Zpos (digits2_pos p) + Zpos k)%Z.
Proof.
  induction k as [|k IH] using Pos.peano_ind.
  - cbn. lia.
  - rewrite Pos.iter_succ. cbn [digits2_pos]. lia.
Qed.

(** A mantissa of exactly 53 bits with an exponent in range is kept as it
    is by the rounding. *)
Lemma binary_round_aux_exact (m : positive) (e : Z) :
  Zpos (digits2_pos m) = 53%Z -> (-1074 <= e <= 971)%Z ->
  binary_round_aux F64.prec F64.emax false (Zpos m) e loc_Exact =
    S754_finite false m e.
Proof.
  intros Hdigits He.
  assert (shr_fexp F64.prec F64.emax (Zpos m) e loc_Exact =
          ({| shr_m := Zpos m; shr_r := false; shr_s := false |}, e)) as Hshr.
  { unfold shr_fexp, shr, fexp, emin, Zdigits2. rewrite Hdigits.
    replace (Z.max (53 + e - F64.prec) (3 - F64.emax - F64.prec) - e)%Z
      with 0%Z by (unfold F64.prec, F64.emax; lia).
    reflexivity. }
  unfold binary_round_aux. rewrite Hshr. cbn [shr_m loc_of_shr_record
    round_nearest_even]. rewrite Hshr. cbn [shr_m].
  replace (e <=? F64.emax - F64.prec)%Z with true; [done|].
  symmetry. apply Z.leb_le. unfold F64.prec, F64.emax. lia.
Qed.

(** The conversion of an integer in [1 .. 2^53 - 1] is finite and positive. *)
Lemma of_nat_finite n :
  0 < n -> (Z.of_nat n < 2 ^ 53)%Z ->
  exists m e, F64.of_nat n = S754_finite false m e.
Proof.
  intros Hpos Hsmall. unfold F64.of_nat, F64.of_Z, binary_normalize.
  destruct (Z.of_nat n) as [|p|p] eqn:Ep; [lia| |lia].
  pose proof (digits2_pos_le p 53 ltac:(lia) Hsmall) as Hdigits.
  assert (1 <= Zpos (digits2_pos p))%Z as Hone by lia.
  unfold binary_round.
  assert (fexp F64.prec F64.emax (Zpos (digits2_pos p) + 0) =
          (Zpos (digits2_pos p) - 53)%Z) as ->.
  { unfold fexp, emin, F64.prec, F64.emax. lia. }
  unfold shl_align.
  destruct (Zpos (digits2_pos p) - 53 - 0)%Z as [|d|d] eqn:Ed; [|lia|].
  - eexists _, _. apply binary_round_aux_exact; lia.
  - eexists _, _. apply binary_round_aux_exact; [|lia].
    rewrite digits2_pos_iter_xO. lia.
Qed.

End ExactIntegers.

(** ** Binary64 arithmetic on integers below [2^53] is exact *)

Section ExactArithmetic.


















End ExactArithmetic.

Section Division.






End Division.

(** ** The group kernels on columns of integers *)

Section IntegerColumns.






End IntegerColumns.

Section ConstantColumns.








End ConstantColumns.

(** ** Binary64 arithmetic on dyadic numbers of at most 53 bits is exact *)

Section Dyadic.










Section AddSub.

Variables n1 k1 n2 k2 : Z.
Hypothesis Hn1 : (Z.abs n1 < 2 ^ 53)%Z.
Hypothesis Hn2 : (Z.abs n2 < 2 ^ 53)%Z.
Hypothesis Hk1 : (-1000 <= k1 <= 0)%Z.
Hypothesis Hk2 : (-1000 <= k2 <= 0)%Z.




End AddSub.








End Dyadic.

(** ** The variance kernel on two integer cells *)

Section TwoCells.








End TwoCells.

(** ** The loops of [run_one] *)

Ltac unfold_monad :=
  unfold call_set_generator_factory, call_randint, call_sketch_factory,
    call_add_ids, call_noiser, call_estimator, call_aggregate, call_to_csv,
    index;
  unfold mbind, M_bind, mret, M_ret, gets, modify, record, raise, lift.

Section RunOne.

Context {Id : Type} `{Countable Id}.
Context {Sketch RandomState : Type}.
Context `{!SketchBase Id Sketch} `{!RandomStateBase RandomState}.

Implicit Types self : Simulator Id Sketch RandomState.

Lemma log_nil self : log [] self = self.
Proof. destruct self. unfold log, with_calls. simpl. by rewrite app_nil_r. Qed.

Lemma log_log cs1 cs2 self : log cs2 (log cs1 self) = log (cs1 ++ cs2) self.
Proof. unfold log, with_calls. simpl. by rewrite app_assoc. Qed.

Lemma estimator_config_log cs self :
  estimator_config (log cs self) = estimator_config self.
Proof. reflexivity. Qed.

Lemma build_sketches_spec seed sets sketches actual_ids self :
  build_sketches seed sets sketches actual_ids self =
    (Ok (sketches ++ built_sketches (estimator_config self) seed sets,
         actual_ids ++ sets),
     log (build_calls (estimator_config self) seed sets) self).
Proof.
  revert sketches actual_ids self.
  induction sets as [|ids sets IH]; intros sketches actual_ids self.
  - cbn. by rewrite !app_nil_r, log_nil.
  - cbn [build_sketches]. unfold_monad. cbn.
    rewrite IH. cbn. rewrite <- !app_assoc. cbn.
    f_equal. unfold log, with_calls. cbn. by rewrite <- app_assoc.
Qed.

Lemma noise_sketches_spec noiser sketches self :
  noise_sketches noiser sketches self =
    (Ok (noiser <$> sketches), log (CallNoiser <$> sketches) self).
Proof.
  revert self. induction sketches as [|s sketches IH]; intros self.
  - cbn. by rewrite log_nil.
  - cbn [noise_sketches]. unfold_monad. cbn.
    rewrite IH. cbn. f_equal. unfold log, with_calls. cbn.
    by rewrite <- app_assoc.
Qed.

Lemma union_of_prefix_S i (sets : list (list Id)) ids :
  sets !! i = Some ids ->
  union_of_prefix (S i) sets = union_of_prefix i sets ∪ list_to_set ids.
Proof.
  intros Hi. unfold union_of_prefix.
  rewrite (take_S_r _ _ _ Hi), fmap_app, union_list_app_L. cbn.
  by rewrite (right_id_L ∅ (∪)).
Qed.

Lemma estimate_prefixes_spec estimator sketches actual_ids k n
    true_union metrics self :
  k + n <= length actual_ids ->
  true_union = union_of_prefix k actual_ids ->
  estimate_prefixes estimator sketches actual_ids (seq k n)
      true_union metrics self =
    (Ok (metrics ++ (prefix_row estimator sketches actual_ids <$> seq k n)),
     log (estimate_calls sketches (seq k n)) self).
Proof.
  revert k true_union metrics self.
  induction n as [|n IH]; intros k true_union metrics self Hlen Hunion.
  - cbn. by rewrite app_nil_r, log_nil.
  - cbn [seq estimate_prefixes]. unfold_monad. cbn.
    destruct (lookup_lt_is_Some_2 actual_ids k) as [ids Hids]; [lia|].
    rewrite Hids. cbn.
    rewrite IH; [|lia|].
    + cbn. rewrite <- app_assoc. cbn. unfold prefix_row at 2.
      replace (k + 1) with (S k) by lia.
      rewrite (union_of_prefix_S _ _ _ Hids), <- Hunion.
      f_equal. unfold log, with_calls. cbn. by rewrite <- app_assoc.
    + by rewrite (union_of_prefix_S _ _ _ Hids), Hunion.
Qed.

(** [run_one] never raises; its table and its calls are those of the
    closed forms. *)
Lemma run_one_spec self :
  run_one self =
    let '(sets, set_rs) := set_generator_factory self (set_random_state self) in
    let '(seed, sketch_rs) := randint seed_bound (sketch_random_state self) in
    (Ok (trial_table (estimator_config self) seed sets),
     after_trial set_rs sketch_rs seed sets self).
Proof.
  unfold run_one. unfold_monad. cbn.
  destruct (set_generator_factory self (set_random_state self))
    as [sets set_rs] eqn:Esets. cbn.
  fold seed_bound.
  destruct (randint seed_bound (sketch_random_state self))
    as [seed sketch_rs] eqn:Eseed. cbn.
  rewrite build_sketches_spec. cbn.
  set (config := estimator_config self).
  assert (length (built_sketches config seed sets) = length sets) as Hlen
    by (unfold built_sketches; apply length_fmap).
  unfold after_trial, trial_table, trial_calls, final_sketches, noise_calls.
  fold config.
  destruct (noiser config) as [noiser|] eqn:Enoiser.
  - rewrite noise_sketches_spec. cbn [fst snd].
    rewrite length_fmap, Hlen.
    rewrite estimate_prefixes_spec by (done || cbn; lia).
    cbn [app]. f_equal. rewrite !log_log.
    unfold log, with_calls. cbn. by rewrite <- !app_assoc.
  - cbn [fst snd]. rewrite Hlen.
    rewrite estimate_prefixes_spec by (done || cbn; lia).
    cbn [app]. f_equal. rewrite !log_log.
    unfold log, with_calls. cbn. by rewrite <- !app_assoc.
Qed.

End RunOne.

(** ** The loop and the pipeline of [run_all_and_aggregate] *)

Section RunAll.

Context {Id : Type} `{Countable Id}.
Context {Sketch RandomState : Type}.
Context `{!SketchBase Id Sketch} `{!RandomStateBase RandomState}.

Implicit Types self : Simulator Id Sketch RandomState.

Lemma trials_calls_cons (config : EstimatorConfig Sketch) seed sets inputs :
  trials_calls config ((seed, sets) :: inputs) =
    trial_calls (Id:=Id) config seed sets ++ trials_calls config inputs.
Proof. reflexivity. Qed.

Lemma run_trials_spec n t dfs self :
  run_trials (seq t n) dfs self =
    (Ok (dfs ++ trial_frames (estimator_config self) t (next_inputs n self)),
     after_trials n self).
Proof.
  revert t dfs self. induction n as [|n IH]; intros t dfs self.
  - cbn. rewrite app_nil_r. unfold after_trials. cbn.
    rewrite log_nil. by destruct self.
  - cbn [seq run_trials]. unfold mbind, M_bind.
    rewrite run_one_spec.
    unfold after_trials, next_inputs. cbn [trial_inputs random_states_after].
    destruct (set_generator_factory self (set_random_state self))
      as [sets set_rs] eqn:Esets.
    destruct (randint seed_bound (sketch_random_state self))
      as [seed sketch_rs] eqn:Eseed.
    rewrite IH. cbn [trial_frames]. rewrite <- app_assoc. cbn [app].
    f_equal.
    unfold after_trials, next_inputs, after_trial, log, with_calls,
      with_sketch_random_state, with_set_random_state.
    cbn -[trial_calls trials_calls].
    by rewrite trials_calls_cons, app_assoc.
Qed.

Lemma set_relative_error_spec (df : list RunRow) :
  set_relative_error df
    (relative_error_series (r_estimated_cardinality <$> df)
       ((fun row => F64.of_nat (r_true_cardinality row)) <$> df)) =
  with_relative_error <$> df.
Proof.
  unfold relative_error_series, Pandas.series_div, Pandas.series_sub,
    set_relative_error.
  induction df as [|row df IH]; [done|].
  cbn. by rewrite IH.
Qed.

(** The division raises on [object] columns with a zero divisor, and
    nowhere else. *)
Lemma relative_error_of_columns_spec (frames : list (list RunRow)) :
  relative_error_of_columns (Pandas.concat_dtype frames) (concat frames) =
    if has_empty_frame frames && has_zero_truth (concat frames)
    then Raise ZeroDivisionError
    else Ok (relative_error_series
               (r_estimated_cardinality <$> concat frames)
               ((fun row => F64.of_nat (r_true_cardinality row))
                  <$> concat frames)).
Proof.
  unfold relative_error_of_columns, Pandas.concat_dtype, has_empty_frame,
    has_zero_truth.
  destruct (existsb _ frames); cbn [andb]; [|done].
  by destruct (existsb _ (concat frames)).
Qed.

Lemma has_empty_frame_trial_frames (config : EstimatorConfig Sketch) t
    (inputs : list (Z * list (list Id))) :
  has_empty_frame (trial_frames config t inputs) = existsb yields_no_set inputs.
Proof.
  revert t. induction inputs as [|[seed sets] inputs IH]; intros t; [done|].
  cbn [trial_frames has_empty_frame existsb].
  unfold has_empty_frame in IH. rewrite IH. f_equal.
  unfold yields_no_set, set_run_index, trial_table. cbn [snd].
  by destruct sets.
Qed.

Lemma has_zero_truth_app (df1 df2 : list RunRow) :
  has_zero_truth (df1 ++ df2) = has_zero_truth df1 || has_zero_truth df2.
Proof. apply existsb_app. Qed.

Lemma union_of_prefix_first i ids (sets : list (list Id)) :
  list_to_set ids ⊆ union_of_prefix (S i) (ids :: sets).
Proof.
  unfold union_of_prefix. cbn. apply union_subseteq_l.
Qed.

(** A table has a row whose [true_cardinality] is 0 exactly when the first
    set of the trial is empty. *)
Lemma has_zero_truth_trial_table (config : EstimatorConfig Sketch) t seed
    (sets : list (list Id)) :
  has_zero_truth (set_run_index t (trial_table config seed sets)) =
    first_set_empty (seed, sets).
Proof.
  unfold first_set_empty. cbn [snd].
  destruct sets as [|ids sets]; [done|].
  unfold has_zero_truth, set_run_index, trial_table.
  destruct ids as [|x ids].
  - cbn. unfold union_of_prefix. rewrite take_0. cbn.
    by rewrite (left_id_L ∅ (∪)), size_empty.
  - apply not_true_is_false. intros (row & Hrow & Hzero)%existsb_exists.
    apply list_elem_of_In in Hrow.
    apply list_elem_of_fmap in Hrow as (trow & -> & Htrow).
    apply list_elem_of_fmap in Htrow as (i & -> & _).
    cbn in Hzero. apply Nat.eqb_eq, size_empty_inv in Hzero.
    replace (i + 1) with (S i) in Hzero by lia.
    pose proof (union_of_prefix_first i (x :: ids) sets) as Hsub.
    assert (x ∈ union_of_prefix (S i) ((x :: ids) :: sets)) as Hx.
    { apply Hsub, elem_of_list_to_set, list_elem_of_here. }
    by apply Hzero in Hx.
Qed.

Lemma has_zero_truth_trial_frames (config : EstimatorConfig Sketch) t
    (inputs : list (Z * list (list Id))) :
  has_zero_truth (concat (trial_frames config t inputs)) =
    existsb first_set_empty inputs.
Proof.
  revert t. induction inputs as [|[seed sets] inputs IH]; intros t; [done|].
  cbn [trial_frames concat existsb].
  by rewrite has_zero_truth_app, IH, has_zero_truth_trial_table.
Qed.

(** The whole method in closed form. *)
Lemma run_all_and_aggregate_spec self :
  run_all_and_aggregate self =
    let n := Z.to_nat (num_runs self) in
    let self1 := after_trials n self in
    match trial_frames (estimator_config self) 0 (next_inputs n self) with
    | [] => (Raise (ValueError "No objects to concatenate"), self1)
    | frames =>
        if division_raises (next_inputs n self)
        then (Raise ZeroDivisionError, self1)
        else
          let df := with_relative_error <$> concat frames in
          let df_agg := aggregate df in
          let self2 := log [CallAggregate df] self1 in
          match write_sink (file_handle_raw self) (CsvRaw df) self2 with
          | (Raise e, self3) => (Raise e, self3)
          | (Ok _, self3) =>
              match write_sink (file_handle_agg self) (CsvAgg df_agg) self3 with
              | (Raise e, self4) => (Raise e, self4)
              | (Ok _, self4) => (Ok (df, df_agg), self4)
              end
          end
    end.
Proof.
  unfold run_all_and_aggregate.
  unfold mbind at 1. unfold M_bind, gets.
  unfold mbind at 1. unfold M_bind. rewrite run_trials_spec. cbn [app].
  unfold division_raises.
  rewrite <- (has_empty_frame_trial_frames (estimator_config self) 0).
  rewrite <- (has_zero_truth_trial_frames (estimator_config self) 0).
  destruct (trial_frames _ 0 _) as [|frame frames] eqn:Eframes.
  - reflexivity.
  - unfold mbind at 1. unfold M_bind, lift, Pandas.concat.
    unfold mbind at 1. unfold M_bind.
    rewrite relative_error_of_columns_spec.
    destruct (has_empty_frame _ && has_zero_truth _); [done|].
    rewrite set_relative_error_spec.
    set (df := with_relative_error <$> concat (frame :: frames)).
    set (df_agg := aggregate df). clearbody df.
    assert (file_handle_raw (after_trials (Z.to_nat (num_runs self)) self)
            = file_handle_raw self) as Hraw by reflexivity.
    assert (file_handle_agg (after_trials (Z.to_nat (num_runs self)) self)
            = file_handle_agg self) as Hagg by reflexivity.
    revert Hraw Hagg.
    generalize (after_trials (Z.to_nat (num_runs self)) self).
    intros self1 <- <-.
    unfold write_sink, log. unfold_monad. cbn.
    fold df_agg. clearbody df_agg.
    destruct (file_handle_raw self1) as [raw|]; cbn.
    + destruct (fh_write raw (CsvRaw df)); cbn; [done|].
      destruct (file_handle_agg self1) as [agg|]; cbn; [|done].
      by destruct (fh_write agg (CsvAgg df_agg)).
    + destruct (file_handle_agg self1) as [agg|]; cbn; [|done].
      by destruct (fh_write agg (CsvAgg df_agg)).
Qed.

End RunAll.

(** ** Consequences of the closed forms *)

Section Outcomes.

Context {Id : Type} `{Countable Id}.
Context {Sketch RandomState : Type}.
Context `{!SketchBase Id Sketch} `{!RandomStateBase RandomState}.

Implicit Types self : Simulator Id Sketch RandomState.

Lemma length_trial_inputs factory n (set_rs sketch_rs : RandomState) :
  length (trial_inputs (Id:=Id) factory n set_rs sketch_rs) = n.
Proof.
  revert set_rs sketch_rs. induction n as [|n IH]; intros set_rs sketch_rs; [done|].
  cbn. destruct (factory set_rs), (randint seed_bound sketch_rs). cbn.
  by rewrite IH.
Qed.

Lemma length_next_inputs n self : length (next_inputs n self) = n.
Proof. apply length_trial_inputs. Qed.

Lemma length_trial_frames (config : EstimatorConfig Sketch) t
    (inputs : list (Z * list (list Id))) :
  length (trial_frames config t inputs) = length inputs.
Proof.
  revert t. induction inputs as [|[seed sets] inputs IH]; intros t; [done|].
  cbn. by rewrite IH.
Qed.

Lemma length_trial_table (config : EstimatorConfig Sketch) seed
    (sets : list (list Id)) :
  length (trial_table config seed sets) = length sets.
Proof. unfold trial_table. by rewrite length_fmap, length_seq. Qed.

(** The frames are empty exactly when no trial is run. *)
Lemma trial_frames_nil self :
  trial_frames (estimator_config self) 0
    (next_inputs (Z.to_nat (num_runs self)) self) = [] <->
  (num_runs self <= 0)%Z.
Proof.
  split.
  - intros Hnil. apply (f_equal length) in Hnil.
    rewrite length_trial_frames, length_next_inputs in Hnil. cbn in Hnil. lia.
  - intros Hle. replace (Z.to_nat (num_runs self)) with 0 by lia. done.
Qed.

(** The trials for which the division raises, in words. *)
Lemma division_raises_true (inputs : list (Z * list (list Id))) :
  division_raises inputs = true <->
  (exists input, input ∈ inputs /\ snd input = []) /\
  (exists input sets, input ∈ inputs /\ snd input = [] :: sets).
Proof.
  unfold division_raises. rewrite andb_true_iff, !existsb_exists.
  split.
  - intros [(i1 & Hi1 & Hno) (i2 & Hi2 & Hfirst)].
    apply list_elem_of_In in Hi1, Hi2. split.
    + exists i1. split; [done|]. unfold yields_no_set in Hno.
      by destruct (snd i1).
    + unfold first_set_empty in Hfirst.
      destruct (snd i2) as [|[|x ids] sets] eqn:E2; try done.
      by exists i2, sets.
  - intros [(i1 & Hi1 & Hno) (i2 & sets & Hi2 & Hfirst)].
    apply list_elem_of_In in Hi1, Hi2. split.
    + exists i1. split; [done|]. unfold yields_no_set. by rewrite Hno.
    + exists i2. split; [done|]. unfold first_set_empty. by rewrite Hfirst.
Qed.

Lemma existsb_yields_no_set_false (inputs : list (Z * list (list Id))) :
  existsb yields_no_set inputs = false <->
  Forall (fun input => snd input <> []) inputs.
Proof.
  induction inputs as [|[seed sets] inputs IH].
  - done.
  - cbn [existsb]. rewrite orb_false_iff, IH, Forall_cons.
    unfold yields_no_set. cbn [snd].
    destruct sets; split; intros [? ?]; done.
Qed.


(** A result comes from at least one trial, for which the division does not
    raise; the raw table is made of the frames of the trials and the
    aggregated table is made from it. *)
Lemma run_all_and_aggregate_Ok_inv self df df_agg self' :
  run_all_and_aggregate self = (Ok (df, df_agg), self') ->
  (0 < num_runs self)%Z /\
  division_raises (next_inputs (Z.to_nat (num_runs self)) self) = false /\
  df = with_relative_error <$>
         concat (trial_frames (estimator_config self) 0
                   (next_inputs (Z.to_nat (num_runs self)) self)) /\
  df_agg = aggregate df.
Proof.
  rewrite run_all_and_aggregate_spec. cbn zeta.
  destruct (trial_frames _ 0 _) as [|frame frames] eqn:Eframes; [done|].
  assert (0 < num_runs self)%Z as Hpos.
  { destruct (Z_lt_le_dec 0 (num_runs self)) as [|Hle]; [done|].
    apply trial_frames_nil in Hle. congruence. }
  destruct (division_raises _); [done|].
  unfold write_sink.
  destruct (file_handle_raw self) as [raw|];
    [destruct (fh_write raw _); [done|]|];
    (destruct (file_handle_agg self) as [agg|];
      [destruct (fh_write agg _); [done|]|]);
    intros [= <- <- <-]; done.
Qed.

Lemma run_all_and_aggregate_Ok self df df_agg self' :
  run_all_and_aggregate self = (Ok (df, df_agg), self') ->
  (0 < num_runs self)%Z /\
  df = with_relative_error <$>
         concat (trial_frames (estimator_config self) 0
                   (next_inputs (Z.to_nat (num_runs self)) self)) /\
  df_agg = aggregate df.
Proof.
  intros (? & _ & ? & ?)%run_all_and_aggregate_Ok_inv. done.
Qed.

(** An exception is the refusal of an empty list of frames, comes from the
    division between [object] columns, or comes from a sink. *)
Lemma run_all_and_aggregate_Raise self e self' :
  run_all_and_aggregate self = (Raise e, self') ->
  ((num_runs self <= 0)%Z /\ e = ValueError "No objects to concatenate") \/
  ((0 < num_runs self)%Z /\
   division_raises (next_inputs (Z.to_nat (num_runs self)) self) = true /\
   e = ZeroDivisionError) \/
  ((0 < num_runs self)%Z /\
   division_raises (next_inputs (Z.to_nat (num_runs self)) self) = false /\
   raised_by_sink self e).
Proof.
  rewrite run_all_and_aggregate_spec. cbn zeta.
  destruct (trial_frames _ 0 _) as [|frame frames] eqn:Eframes.
  - intros [= <- <-]. left. split; [|done]. by apply trial_frames_nil.
  - assert (0 < num_runs self)%Z as Hpos.
    { destruct (Z_lt_le_dec 0 (num_runs self)) as [|Hle]; [done|].
      apply trial_frames_nil in Hle. congruence. }
    destruct (division_raises _).
    { intros [= <- <-]. right. left. done. }
    unfold write_sink. intros Hrun. right. right.
    split; [done|]. split; [done|]. revert Hrun.
    destruct (file_handle_raw self) as [raw|] eqn:Eraw;
      [destruct (fh_write raw _) eqn:Ewraw;
        [intros [= <- <-]; exists raw; eexists; eauto|]|];
      (destruct (file_handle_agg self) as [agg|] eqn:Eagg;
        [destruct (fh_write agg _) eqn:Ewagg;
          [intros [= <- <-]; exists agg; eexists; eauto|]|]);
      done.
Qed.

(** With at least one trial, the division raises for the trials described
    by [division_raises], before [aggregate] is called and before any sink
    is written. *)
Lemma run_all_and_aggregate_division_raises self :
  (0 < num_runs self)%Z ->
  division_raises (next_inputs (Z.to_nat (num_runs self)) self) = true ->
  run_all_and_aggregate self =
    (Raise ZeroDivisionError, after_trials (Z.to_nat (num_runs self)) self).
Proof.
  intros Hpos Hraises.
  rewrite run_all_and_aggregate_spec. cbn zeta.
  destruct (trial_frames _ 0 _) as [|frame frames] eqn:Eframes.
  - apply trial_frames_nil in Eframes. lia.
  - by rewrite Hraises.
Qed.

(** Without sinks, with at least one trial and no division that raises, the
    method returns. *)
Lemma run_all_and_aggregate_without_sinks self :
  (0 < num_runs self)%Z ->
  division_raises (next_inputs (Z.to_nat (num_runs self)) self) = false ->
  file_handle_raw self = None -> file_handle_agg self = None ->
  run_all_and_aggregate self =
    (let df := with_relative_error <$>
                 concat (trial_frames (estimator_config self) 0
                   (next_inputs (Z.to_nat (num_runs self)) self)) in
     (Ok (df, aggregate df),
      log [CallAggregate df] (after_trials (Z.to_nat (num_runs self)) self))).
Proof.
  intros Hpos Hraises Hraw Hagg.
  rewrite run_all_and_aggregate_spec. cbn zeta.
  destruct (trial_frames _ 0 _) as [|frame frames] eqn:Eframes.
  - apply trial_frames_nil in Eframes. lia.
  - by rewrite Hraises, Hraw, Hagg.
Qed.

End Outcomes.

(** ** The claims about [run_all_and_aggregate] as a whole *)

Section Driver.

Context {Id : Type} `{Countable Id}.
Context {Sketch RandomState : Type}.
Context `{!SketchBase Id Sketch} `{!RandomStateBase RandomState}.

Implicit Types self : Simulator Id Sketch RandomState.

Lemma run_all_and_aggregate_fst_Ok self df df_agg :
  fst (run_all_and_aggregate self) = Ok (df, df_agg) ->
  (0 < num_runs self)%Z /\
  df = with_relative_error <$>
         concat (trial_frames (estimator_config self) 0
                   (next_inputs (Z.to_nat (num_runs self)) self)) /\
  df_agg = aggregate df.
Proof.
  destruct (run_all_and_aggregate self) as [r self'] eqn:Erun. cbn.
  intros ->. by apply run_all_and_aggregate_Ok in Erun.
Qed.

Lemma run_all_and_aggregate_fst_Ok_inv self df df_agg :
  fst (run_all_and_aggregate self) = Ok (df, df_agg) ->
  (0 < num_runs self)%Z /\
  division_raises (next_inputs (Z.to_nat (num_runs self)) self) = false /\
  df = with_relative_error <$>
         concat (trial_frames (estimator_config self) 0
                   (next_inputs (Z.to_nat (num_runs self)) self)) /\
  df_agg = aggregate df.
Proof.
  destruct (run_all_and_aggregate self) as [r self'] eqn:Erun. cbn.
  intros ->. by apply run_all_and_aggregate_Ok_inv in Erun.
Qed.

Lemma length_concat_trial_frames (config : EstimatorConfig Sketch) t
    (inputs : list (Z * list (list Id))) :
  length (concat (trial_frames config t inputs)) =
    sum_list ((fun input => length (snd input)) <$> inputs).
Proof.
  revert t. induction inputs as [|[seed sets] inputs IH]; intros t; [done|].
  cbn. rewrite length_app, IH. unfold set_run_index.
  by rewrite length_fmap, length_trial_table.
Qed.

Lemma drop_with_relative_error (rows : list RunRow) :
  drop_relative_error <$> (with_relative_error <$> rows) = rows.
Proof.
  induction rows as [|[] rows IH]; [done|]. cbn. by rewrite IH.
Qed.

Lemma trial_frames_imap (config : EstimatorConfig Sketch) t0
    (inputs : list (Z * list (list Id))) :
  trial_frames config t0 inputs =
    imap (fun t input =>
            set_run_index (t0 + t)
              (trial_table config (fst input) (snd input))) inputs.
Proof.
  revert t0. induction inputs as [|[seed sets] inputs IH]; intros t0; [done|].
  cbn. replace (t0 + 0) with t0 by lia. f_equal.
  rewrite IH. apply imap_ext. intros i input _. cbn. f_equal. lia.
Qed.

Lemma after_trials_0 self : after_trials 0 self = self.
Proof. unfold after_trials. cbn. rewrite log_nil. by destruct self. Qed.

(** Without a trial there is nothing to concatenate. *)
Lemma run_all_and_aggregate_no_runs self :
  (num_runs self <= 0)%Z ->
  run_all_and_aggregate self =
    (Raise (ValueError "No objects to concatenate"), self).
Proof.
  intros Hle. rewrite run_all_and_aggregate_spec. cbn zeta.
  replace (Z.to_nat (num_runs self)) with 0 by lia.
  by rewrite after_trials_0.
Qed.

(** C10. A simulator constructed with [num_runs = 0] is accepted by the
    constructor, which stores the value as it is; [run_all_and_aggregate]
    then raises the [ValueError] of [pd.concat] on an empty list instead of
    returning two empty tables, whatever the other arguments are. *)
Theorem zero_runs_raises factory (config : EstimatorConfig Sketch)
    sketch_random_state set_random_state file_handle_raw file_handle_agg
    (entropy : RandomState * RandomState) :
  let self := init (Id:=Id) 0 factory config sketch_random_state
                set_random_state file_handle_raw file_handle_agg entropy in
  num_runs self = 0%Z /\
  run_all_and_aggregate self =
    (Raise (ValueError "No objects to concatenate"), self).
Proof.
  cbn zeta. split; [done|].
  by apply run_all_and_aggregate_no_runs.
Qed.

(** A row of the raw table whose [true_cardinality] is 0 comes from a trial
    whose first set is empty. *)
Lemma zero_truth_row (config : EstimatorConfig Sketch) t
    (inputs : list (Z * list (list Id))) row :
  row ∈ with_relative_error <$> concat (trial_frames config t inputs) ->
  true_cardinality row = 0 ->
  existsb first_set_empty inputs = true.
Proof.
  intros (r & -> & Hr)%list_elem_of_fmap Hzero. cbn in Hzero.
  rewrite <- (has_zero_truth_trial_frames config t).
  apply existsb_exists. exists r. split; [by apply list_elem_of_In|].
  by apply Nat.eqb_eq.
Qed.

(** C1 (amended). In every row of a raw table that [run_all_and_aggregate]
    returns, [relative_error] is the binary64 value of
    [(estimated_cardinality - true_cardinality) / true_cardinality]. A row
    whose [true_cardinality] is 0 is in a returned table only when every
    trial yielded a set (the columns are then [float64] and [int64]
    columns); its [relative_error] is NaN when the estimate is a zero or
    NaN, and the infinity with the sign of the estimate otherwise. When a
    trial yields no set (its empty table makes the columns [object] columns)
    and the first set of a trial is empty (a [true_cardinality] of 0), the
    division raises [ZeroDivisionError]. An exception of the method is this
    one, the refusal of an empty list of frames, or comes from a sink. *)
Theorem relative_error_of_rows self :
  let inputs := next_inputs (Z.to_nat (num_runs self)) self in
  match fst (run_all_and_aggregate self) with
  | Ok (df, _) =>
      forall row, row ∈ df ->
        rel_error row =
          relative_error (estimated_cardinality row)
            (F64.of_nat (true_cardinality row)) /\
        (true_cardinality row = 0 ->
         Forall (fun input => snd input <> []) inputs /\
         rel_error row =
           if F64.is_nan (estimated_cardinality row)
              || F64.is_zero (estimated_cardinality row)
           then S754_nan
           else S754_infinity (F64.signbit (estimated_cardinality row)))
  | Raise e =>
      ((num_runs self <= 0)%Z /\ e = ValueError "No objects to concatenate")
      \/ (e = ZeroDivisionError /\
          (exists input, input ∈ inputs /\ snd input = []) /\
          (exists input sets, input ∈ inputs /\ snd input = [] :: sets))
      \/ raised_by_sink self e
  end /\
  ((0 < num_runs self)%Z ->
   (exists input, input ∈ inputs /\ snd input = []) ->
   (exists input sets, input ∈ inputs /\ snd input = [] :: sets) ->
   fst (run_all_and_aggregate self) = Raise ZeroDivisionError).
Proof.
  intros inputs. split.
  - destruct (run_all_and_aggregate self) as [[[df df_agg]|e] self'] eqn:Erun;
      cbn.
    + apply run_all_and_aggregate_Ok_inv in Erun as (_ & Hraises & -> & _).
      intros row Hrow. split.
      { apply list_elem_of_fmap in Hrow as (r & -> & _). done. }
      intros Hzero. split.
      * apply existsb_yields_no_set_false.
        pose proof (zero_truth_row _ _ _ _ Hrow Hzero) as Hfirst.
        unfold division_raises in Hraises. fold inputs in Hraises, Hfirst.
        rewrite Hfirst, andb_true_r in Hraises. exact Hraises.
      * apply list_elem_of_fmap in Hrow as (r & -> & _). cbn in Hzero |- *.
        rewrite Hzero. apply relative_error_truth_zero.
    + apply run_all_and_aggregate_Raise in Erun
        as [?|[(_ & Hraises & ->)|(_ & _ & ?)]]; auto.
      right. left. split; [done|]. by apply division_raises_true.
  - intros Hpos Hno Hfirst.
    rewrite run_all_and_aggregate_division_raises; [done|done|].
    by apply division_raises_true.
Qed.

(** C3. Two simulators constructed with the same explicit sketch random
    state and the same explicit set random state, the same run count, set
    generator factory and estimator configuration compute the same tables,
    whatever their sinks are and whatever the operating system's entropy is:
    without their sinks they have the same result, and when both return,
    they return the same raw table (and the same aggregated table). *)
Theorem same_seeds_same_tables n factory (config : EstimatorConfig Sketch)
    (sketch_rs set_rs : RandomState)
    file_handle_raw1 file_handle_agg1 file_handle_raw2 file_handle_agg2
    (entropy1 entropy2 : RandomState * RandomState) :
  let sim1 := init (Id:=Id) n factory config (Some sketch_rs) (Some set_rs)
                file_handle_raw1 file_handle_agg1 entropy1 in
  let sim2 := init (Id:=Id) n factory config (Some sketch_rs) (Some set_rs)
                file_handle_raw2 file_handle_agg2 entropy2 in
  fst (run_all_and_aggregate (without_sinks sim1)) =
    fst (run_all_and_aggregate (without_sinks sim2)) /\
  (forall df1 df_agg1 df2 df_agg2,
     fst (run_all_and_aggregate sim1) = Ok (df1, df_agg1) ->
     fst (run_all_and_aggregate sim2) = Ok (df2, df_agg2) ->
     df1 = df2 /\ df_agg1 = df_agg2).
Proof.
  intros sim1 sim2. split; [reflexivity|].
  intros df1 df_agg1 df2 df_agg2
         (_ & -> & ->)%run_all_and_aggregate_fst_Ok
         (_ & -> & ->)%run_all_and_aggregate_fst_Ok.
  done.
Qed.


(** *** The layout of the raw table *)

Lemma run_index_trial_frames (config : EstimatorConfig Sketch) t0
    (inputs : list (Z * list (list Id))) :
  r_run_index <$> concat (trial_frames config t0 inputs) =
    concat (imap (fun t input => replicate (length (snd input)) (t0 + t))
              inputs).
Proof.
  revert t0. induction inputs as [|[seed sets] inputs IH]; intros t0; [done|].
  cbn. rewrite fmap_app, IH. f_equal.
  - unfold set_run_index. rewrite <- list_fmap_compose.
    rewrite <- (length_trial_table config seed sets).
    replace (t0 + 0) with t0 by lia.
    generalize (trial_table config seed sets). intros table.
    induction table as [|row table IHt]; [done|]. cbn. by rewrite IHt.
  - f_equal. apply imap_ext. intros i input _. cbn. f_equal. lia.
Qed.

Lemma elem_of_run_index_trial_frames (config : EstimatorConfig Sketch) t0
    (inputs : list (Z * list (list Id))) t :
  t ∈ r_run_index <$> concat (trial_frames config t0 inputs) <->
  exists i input, t = t0 + i /\ inputs !! i = Some input /\ snd input <> [].
Proof.
  revert t0. induction inputs as [|[seed sets] inputs IH]; intros t0.
  - cbn. split; [by intros ?%elem_of_nil|]. by intros (i & input & _ & ? & _).
  - cbn [trial_frames concat]. rewrite fmap_app, elem_of_app, IH. split.
    + intros [Hframe|(i & input & -> & Hi & Hne)].
      * exists 0, (seed, sets). split_and!.
        -- unfold set_run_index in Hframe.
           rewrite <- list_fmap_compose in Hframe.
           apply list_elem_of_fmap in Hframe as (row & -> & _). cbn. lia.
        -- done.
        -- cbn. intros ->. cbn in Hframe. by apply elem_of_nil in Hframe.
      * exists (S i), input. split_and!; [lia|done|done].
    + intros ([|i] & input & -> & Hi & Hne).
      * left. cbn in Hi. injection Hi as <-. cbn in Hne.
        unfold set_run_index. rewrite <- list_fmap_compose.
        destruct sets as [|ids sets]; [done|].
        unfold trial_table. cbn. replace (t0 + 0) with t0 by lia.
        apply list_elem_of_here.
      * right. exists i, input. split_and!; [lia|done|done].
Qed.

(** C5 (amended). In a raw table returned by [run_all_and_aggregate] with
    [num_runs = R], the rows come run after run, run 0 first, each run's
    rows in the order of its own table and stamped with its index; the
    number of rows is the total number of sets the trials' generators
    yielded; a run index [t] occurs exactly when trial [t] (of [0 .. R-1])
    yielded at least one set, so that the table has exactly the [R]
    distinct values [0 .. R-1] when every trial yielded a set. *)
Theorem raw_table_layout self df df_agg :
  fst (run_all_and_aggregate self) = Ok (df, df_agg) ->
  let R := Z.to_nat (num_runs self) in
  let inputs := next_inputs R self in
  (0 < num_runs self)%Z /\ length inputs = R /\
  drop_relative_error <$> df =
    concat (imap (fun t input =>
                    set_run_index t
                      (trial_table (estimator_config self)
                         (fst input) (snd input)))
              inputs) /\
  run_index <$> df =
    concat (imap (fun t input => replicate (length (snd input)) t) inputs) /\
  length df = sum_list ((fun input => length (snd input)) <$> inputs) /\
  (forall t, t ∈ run_index <$> df <->
     exists input, inputs !! t = Some input /\ snd input <> []) /\
  (Forall (fun input => snd input <> []) inputs ->
   list_to_set (run_index <$> df) =@{gset nat} list_to_set (seq 0 R) /\
   size (list_to_set (run_index <$> df) : gset nat) = R).
Proof.
  intros (Hpos & -> & _)%run_all_and_aggregate_fst_Ok R inputs.
  assert (length inputs = R) as Hlen by apply length_next_inputs.
  set (frames := trial_frames (estimator_config self) 0 inputs).
  assert (forall rows : list RunRow,
            run_index <$> (with_relative_error <$> rows) = r_run_index <$> rows)
    as Hindex.
  { intros rows. rewrite <- list_fmap_compose. done. }
  assert (forall t, t ∈ run_index <$> (with_relative_error <$> concat frames) <->
            exists input, inputs !! t = Some input /\ snd input <> [])
    as Hmem.
  { intros t. rewrite Hindex. unfold frames.
    rewrite elem_of_run_index_trial_frames. split.
    - intros (i & input & -> & Hi & Hne). eauto.
    - intros (input & Hi & Hne). exists t, input. done. }
  split_and!; [done|done| | | |done|].
  - rewrite drop_with_relative_error. unfold frames.
    rewrite trial_frames_imap. f_equal.
  - rewrite Hindex. unfold frames. rewrite run_index_trial_frames. done.
  - rewrite length_fmap. apply length_concat_trial_frames.
  - intros Hall.
    assert (list_to_set (run_index <$> (with_relative_error <$> concat frames))
            =@{gset nat} list_to_set (seq 0 R)) as Heq.
    { apply set_eq. intros t.
      rewrite !elem_of_list_to_set, Hmem, elem_of_seq. split.
      - intros (input & Hi & _). apply lookup_lt_Some in Hi. lia.
      - intros [_ Hlt].
        destruct (lookup_lt_is_Some_2 inputs t) as [input Hi]; [lia|].
        exists input. split; [done|].
        by apply (Forall_lookup_1 _ _ _ _ Hall Hi). }
    split; [exact Heq|]. etrans; [exact (f_equal size Heq)|].
    rewrite size_list_to_set by apply NoDup_seq. apply length_seq.
Qed.

(** *** The sinks *)

Lemma trial_calls_not_to_csv (config : EstimatorConfig Sketch) seed
    (sets : list (list Id)) :
  Forall (fun c => is_to_csv c = false) (trial_calls config seed sets).
Proof.
  unfold trial_calls, build_calls, noise_calls, estimate_calls.
  repeat first [apply Forall_cons; split; [done|] | apply Forall_app; split].
  - apply Forall_bind, Forall_forall. intros ids _.
    by repeat constructor.
  - destruct (noiser config); [|done]. by apply Forall_fmap, Forall_forall.
  - by apply Forall_fmap, Forall_forall.
Qed.

Lemma trials_calls_not_to_csv (config : EstimatorConfig Sketch)
    (inputs : list (Z * list (list Id))) :
  Forall (fun c => is_to_csv c = false) (trials_calls config inputs).
Proof.
  apply Forall_bind, Forall_forall. intros input _.
  apply trial_calls_not_to_csv.
Qed.

Lemma trials_calls_not_aggregate (config : EstimatorConfig Sketch)
    (inputs : list (Z * list (list Id))) :
  Forall (fun c => is_aggregate c = false) (trials_calls config inputs).
Proof.
  apply Forall_bind, Forall_forall. intros input _.
  unfold trial_calls, build_calls, noise_calls, estimate_calls.
  repeat first [apply Forall_cons; split; [done|] | apply Forall_app; split].
  - apply Forall_bind, Forall_forall. intros ids _.
    by repeat constructor.
  - destruct (noiser config); [|done]. by apply Forall_fmap, Forall_forall.
  - by apply Forall_fmap, Forall_forall.
Qed.

(** C8. [run_all_and_aggregate] first makes the calls that the same
    simulator without sinks makes, none of which writes to a sink. When
    these raise (no trial to concatenate, or a division that raises), the
    method raises the same exception and writes nothing. Otherwise the raw
    table is complete when [aggregate] is called on it, the last of these
    calls, and the two tables are those the simulator without sinks returns.
    Only then are the configured sinks written, the raw one first, each at
    most once and with the complete table. The exception of a failed write
    is the result of the method (no later write is attempted); without a
    failed write the two tables are returned. *)
Theorem sinks_written_after_tables self :
  exists computed,
    calls (snd (run_all_and_aggregate (without_sinks self))) =
      calls self ++ computed /\
    Forall (fun c => is_to_csv c = false) computed /\
    match fst (run_all_and_aggregate (without_sinks self)) with
    | Raise e =>
        fst (run_all_and_aggregate self) = Raise e /\
        calls (snd (run_all_and_aggregate self)) = calls self ++ computed
    | Ok (df, df_agg) =>
        df_agg = aggregate df /\
        (exists trials,
           computed = trials ++ [CallAggregate df] /\
           Forall (fun c => is_aggregate c = false) trials) /\
        exists written,
          calls (snd (run_all_and_aggregate self)) =
            calls self ++ computed ++ written /\
          match write_error (file_handle_raw self) (CsvRaw df) with
          | Some e =>
              fst (run_all_and_aggregate self) = Raise e /\
              written = [CallToCsv (CsvRaw df)]
          | None =>
              match write_error (file_handle_agg self) (CsvAgg df_agg) with
              | Some e =>
                  fst (run_all_and_aggregate self) = Raise e /\
                  written =
                    (match file_handle_raw self with
                     | Some _ => [CallToCsv (CsvRaw df)]
                     | None => []
                     end) ++ [CallToCsv (CsvAgg df_agg)]
              | None =>
                  fst (run_all_and_aggregate self) = Ok (df, df_agg) /\
                  written = to_csv_calls self df df_agg
              end
          end
    end.
Proof.
  set (R := Z.to_nat (num_runs self)).
  destruct (Z_lt_le_dec 0 (num_runs self)) as [Hpos|Hle].
  2:{ exists []. rewrite !run_all_and_aggregate_no_runs by done.
      cbn. by rewrite app_nil_r. }
  destruct (division_raises (next_inputs R self)) eqn:Hraises.
  { exists (trials_calls (estimator_config self) (next_inputs R self)).
    rewrite !run_all_and_aggregate_division_raises by done.
    cbn [fst snd]. split; [done|].
    split; [apply trials_calls_not_to_csv|done]. }
  set (df := with_relative_error <$>
               concat (trial_frames (estimator_config self) 0
                         (next_inputs R self))).
  set (df_agg := aggregate df).
  assert (run_all_and_aggregate (without_sinks self) =
            (Ok (df, df_agg),
             log [CallAggregate df] (after_trials R (without_sinks self))))
    as Hcomputed by (by rewrite run_all_and_aggregate_without_sinks).
  exists (trials_calls (estimator_config self) (next_inputs R self)
          ++ [CallAggregate df]).
  rewrite Hcomputed. clear Hcomputed. cbn [fst snd].
  split; [cbn; by rewrite app_assoc|].
  split.
  { apply Forall_app. split; [apply trials_calls_not_to_csv|].
    by repeat constructor. }
  split; [done|].
  split.
  { eexists. split; [done|]. apply trials_calls_not_aggregate. }
  exists (match file_handle_raw self with
          | Some _ => [CallToCsv (CsvRaw df)]
          | None => []
          end ++
          match write_error (file_handle_raw self) (CsvRaw df) with
          | Some _ => []
          | None =>
              match file_handle_agg self with
              | Some _ => [CallToCsv (CsvAgg df_agg)]
              | None => []
              end
          end).
  rewrite run_all_and_aggregate_spec. cbn zeta. fold R.
  rewrite Hraises.
  revert df df_agg.
  destruct (trial_frames (estimator_config self) 0 (next_inputs R self))
    as [|frame frames] eqn:Eframes.
  { apply trial_frames_nil in Eframes. lia. }
  intros df df_agg.
  change (with_relative_error <$> concat (frame :: frames)) with df.
  change (aggregate df) with df_agg.
  clearbody df_agg. clearbody df.
  unfold write_sink, write_error, to_csv_calls.
  destruct (file_handle_raw self) as [raw|] eqn:Eraw;
    [destruct (fh_write raw (CsvRaw df)) as [e|] eqn:Ewraw|];
    try (destruct (file_handle_agg self) as [agg|] eqn:Eagg;
      [destruct (fh_write agg (CsvAgg df_agg)) as [e|] eqn:Ewagg|]);
    cbn; rewrite <- ?app_assoc, ?app_nil_r; done.
Qed.

End Driver.

(** ** The claims about one trial *)

Section Trial.

Context {Id : Type} `{Countable Id}.
Context {Sketch RandomState : Type}.
Context `{!SketchBase Id Sketch} `{!RandomStateBase RandomState}.

Implicit Types self : Simulator Id Sketch RandomState.

(** The table and the calls of [run_one], from the sets and the seed. *)
Lemma run_one_outcome self :
  let sets := fst (set_generator_factory self (set_random_state self)) in
  let seed := fst (randint seed_bound (sketch_random_state self)) in
  fst (run_one self) = Ok (trial_table (estimator_config self) seed sets) /\
  calls (snd (run_one self)) =
    calls self ++ trial_calls (estimator_config self) seed sets /\
  sketch_random_state (snd (run_one self)) =
    snd (randint seed_bound (sketch_random_state self)).
Proof.
  rewrite run_one_spec.
  destruct (set_generator_factory self (set_random_state self)) as [sets set_rs].
  destruct (randint seed_bound (sketch_random_state self)) as [seed sketch_rs].
  done.
Qed.

(** C2. When the generator of a trial yields the sets [S1 .. Sn],
    [run_one] returns a table of exactly [n] rows; for every [i] in
    [1 .. n] the row of [num_sets = i] is the row at position [i - 1], the
    only one with this [num_sets], and its [true_cardinality] is the
    number of elements of the set [S1 ∪ ... ∪ Si], however often an
    identifier occurs within or across the sets. *)
Theorem true_cardinality_exact self :
  let sets := fst (set_generator_factory self (set_random_state self)) in
  exists df,
    fst (run_one self) = Ok df /\
    length df = length sets /\
    forall i, 1 <= i <= length sets ->
      exists row,
        df !! (i - 1) = Some row /\
        t_num_sets row = i /\
        t_true_cardinality row =
          size (⋃ (list_to_set <$> take i sets) : gset Id) /\
        (forall j row', df !! j = Some row' -> t_num_sets row' = i ->
           j = i - 1).
Proof.
  intros sets. destruct (run_one_outcome self) as (Hdf & _ & _).
  fold sets in Hdf. eexists. split; [exact Hdf|].
  split; [apply length_trial_table|].
  intros i Hi. unfold trial_table.
  eexists. split.
  { rewrite list_lookup_fmap, (lookup_seq_lt 0 (length sets) (i - 1)) by lia.
    reflexivity. }
  cbn. replace (i - 1 + 1) with i by lia. split_and!; [done|done|].
  intros j row' Hj Hnum.
  rewrite list_lookup_fmap in Hj.
  destruct (seq 0 (length sets) !! j) as [k|] eqn:Ek; [|done].
  apply lookup_seq in Ek as [-> _]. injection Hj as <-. cbn in Hnum. lia.
Qed.

Lemma filter_randint_trial_calls (config : EstimatorConfig Sketch) seed
    (sets : list (list Id)) :
  List.filter is_randint (trial_calls config seed sets) =
    [CallRandint seed_bound seed].
Proof.
  unfold trial_calls. cbn. f_equal.
  rewrite !List.filter_app.
  assert (forall l : list (Call Id Sketch),
            Forall (fun c => is_randint c = false) l ->
            List.filter is_randint l = []) as Hnone.
  { induction 1 as [|c l Hc _ IH]; [done|]. cbn. by rewrite Hc. }
  rewrite !Hnone; [done| | |].
  - by apply Forall_fmap, Forall_forall.
  - unfold noise_calls. destruct (noiser config); [|done].
    by apply Forall_fmap, Forall_forall.
  - apply Forall_bind, Forall_forall. intros ids _. by repeat constructor.
Qed.

Lemma filter_sketch_factory_trial_calls (config : EstimatorConfig Sketch)
    seed (sets : list (list Id)) :
  List.filter is_sketch_factory (trial_calls config seed sets) =
    replicate (length sets) (CallSketchFactory seed).
Proof.
  unfold trial_calls. cbn.
  rewrite !List.filter_app.
  assert (forall l : list (Call Id Sketch),
            Forall (fun c => is_sketch_factory c = false) l ->
            List.filter is_sketch_factory l = []) as Hnone.
  { induction 1 as [|c l Hc _ IH]; [done|]. cbn. by rewrite Hc. }
  rewrite (Hnone (noise_calls _ _)), (Hnone (estimate_calls _ _)).
  - rewrite !app_nil_r. unfold build_calls.
    induction sets as [|ids sets IH]; [done|]. cbn. by rewrite IH.
  - by apply Forall_fmap, Forall_forall.
  - unfold noise_calls. destruct (noiser config); [|done].
    by apply Forall_fmap, Forall_forall.
Qed.

(** C4. A call of [run_one] makes exactly one call of [randint] on the
    sketch random state, with the bound [2^32 - 1], which advances that
    state by this one draw; the seed drawn lies in [0 .. 2^32 - 2]; and
    the calls of the sketch factory in the trial, one per set yielded, are
    all made with this seed. *)
Theorem one_seed_per_trial self :
  let sets := fst (set_generator_factory self (set_random_state self)) in
  exists seed made,
    calls (snd (run_one self)) = calls self ++ made /\
    List.filter is_randint made = [CallRandint (2 ^ 32 - 1) seed] /\
    (0 <= seed <= 2 ^ 32 - 2)%Z /\
    randint (2 ^ 32 - 1) (sketch_random_state self) =
      (seed, sketch_random_state (snd (run_one self))) /\
    List.filter is_sketch_factory made =
      replicate (length sets) (CallSketchFactory seed).
Proof.
  intros sets. destruct (run_one_outcome self) as (_ & Hcalls & Hstate).
  fold sets in Hcalls.
  exists (fst (randint seed_bound (sketch_random_state self))).
  eexists. split; [exact Hcalls|].
  split; [apply filter_randint_trial_calls|].
  split.
  - pose proof (randint_range seed_bound (sketch_random_state self)) as Hr.
    unfold seed_bound in *. lia.
  - split; [|apply filter_sketch_factory_trial_calls].
    rewrite Hstate. fold seed_bound.
    by destruct (randint seed_bound (sketch_random_state self)).
Qed.

Lemma filter_add_ids_build_calls (config : EstimatorConfig Sketch) seed
    (sets : list (list Id)) :
  List.filter is_add_ids (build_calls config seed sets) =
    (fun ids => CallAddIds (sketch_factory config seed) ids) <$> sets.
Proof.
  unfold build_calls.
  induction sets as [|ids sets IH]; [done|]. cbn. by rewrite IH.
Qed.

(** C7. The calls of a trial come in this order: the generator factory
    and the draw of the seed; then, set after set, the making of a sketch
    and the insertion of the set's identifiers into it, with no call of
    the noiser (and no call other than these two) among them; then, when a
    noiser is configured, one call of the noiser per sketch, on that sketch
    alone and in order, and no call at all otherwise; then the calls of the
    estimator, each on a prefix of the sketches the noiser returned, or of
    the sketches as they were built when no noiser is configured. The
    estimates of the rows are the results of these calls of the estimator. *)
Theorem noiser_after_insertions self :
  let config := estimator_config self in
  let sets := fst (set_generator_factory self (set_random_state self)) in
  let seed := fst (randint (2 ^ 32 - 1) (sketch_random_state self)) in
  let sketches :=
    (fun ids => add_ids (sketch_factory config seed) ids) <$> sets in
  let handed :=
    match noiser config with
    | Some noiser => noiser <$> sketches
    | None => sketches
    end in
  exists inserting noising estimating df,
    calls (snd (run_one self)) =
      calls self
      ++ [CallSetGeneratorFactory; CallRandint (2 ^ 32 - 1) seed]
      ++ inserting ++ noising ++ estimating /\
    List.filter is_add_ids inserting =
      ((fun ids => CallAddIds (sketch_factory config seed) ids) <$> sets) /\
    Forall (fun c => is_noiser c = false) inserting /\
    noising =
      match noiser config with
      | Some _ => CallNoiser <$> sketches
      | None => []
      end /\
    estimating =
      ((fun i => CallEstimator (take (i + 1) handed))
         <$> seq 0 (length sets)) /\
    fst (run_one self) = Ok df /\
    length df = length sets /\
    (forall i row, df !! i = Some row ->
       t_estimated_cardinality row = estimator config (take (i + 1) handed)) /\
    Forall (fun c => is_sketch_factory c = true \/ is_add_ids c = true)
      inserting.
Proof.
  intros config sets seed sketches handed.
  destruct (run_one_outcome self) as (Hdf & Hcalls & _).
  fold config sets in Hdf, Hcalls. change seed_bound with (2 ^ 32 - 1)%Z in *.
  fold seed in Hdf, Hcalls.
  exists (build_calls config seed sets),
    (noise_calls config sketches), (estimate_calls handed (seq 0 (length sets))).
  eexists. split; [exact Hcalls|].
  split; [apply filter_add_ids_build_calls|].
  split.
  { apply Forall_bind, Forall_forall. intros ids _. by repeat constructor. }
  split; [done|]. split; [done|]. split; [exact Hdf|].
  split; [apply length_trial_table|].
  split.
  { intros i row Hi. unfold trial_table in Hi.
    rewrite list_lookup_fmap in Hi.
    destruct (seq 0 (length sets) !! i) as [k|] eqn:Ek; [|done].
    apply lookup_seq in Ek as [-> _]. by injection Hi as <-. }
  apply Forall_bind, Forall_forall. intros ids _.
  apply Forall_cons. split; [by left|].
  apply Forall_cons. split; [by right|]. apply Forall_nil_2.
Qed.

End Trial.

(** ** The claim about [aggregate] *)

Section Aggregate.

Lemma group_keys_NoDup keys : NoDup (Pandas.group_keys keys).
Proof.
  unfold Pandas.group_keys. rewrite merge_sort_Permutation.
  apply NoDup_remove_dups.
Qed.

Lemma elem_of_group_keys keys k : k ∈ Pandas.group_keys keys <-> k ∈ keys.
Proof.
  unfold Pandas.group_keys.
  by rewrite merge_sort_Permutation, elem_of_remove_dups.
Qed.

Lemma group_keys_Sorted keys : Sorted le (Pandas.group_keys keys).
Proof. apply Sorted_merge_sort. intros x y. lia. Qed.

Lemma dropna_cons v values :
  dropna (v :: values) =
    if F64.is_nan v then dropna values else v :: dropna values.
Proof.
  unfold dropna. rewrite filter_cons.
  destruct (F64.is_nan v); by case_decide.
Qed.


Lemma length_dropna values : length (dropna values) <= length values.
Proof. apply length_filter. Qed.





Lemma fold_var_step values acc :
  fold_left deviation_step (dropna values)
    (Pandas.var_nobs acc, Pandas.var_mean acc, Pandas.var_ssqdm acc) =
  let acc' := fold_left Pandas.var_step values acc in
  (Pandas.var_nobs acc', Pandas.var_mean acc', Pandas.var_ssqdm acc').
Proof.
  revert acc. induction values as [|v values IH]; intros acc; [done|].
  cbn [fold_left]. rewrite dropna_cons.
  destruct (F64.is_nan v) eqn:Enan.
  - assert (Pandas.var_step acc v = acc) as ->
      by (unfold Pandas.var_step; by rewrite Enan).
    apply IH.
  - cbn [fold_left]. rewrite <- IH.
    unfold Pandas.var_step, deviation_step. by rewrite Enan.
Qed.

Lemma fold_deviation_step_count values n m s :
  fst (fst (fold_left deviation_step values (n, m, s))) = n + length values.
Proof.
  revert n m s. induction values as [|v values IH]; intros n m s.
  - cbn. lia.
  - cbn [fold_left deviation_step]. rewrite IH. cbn. lia.
Qed.

(** The group standard deviation is NaN below two cells that are not NaN,
    and otherwise the square root of their squared deviations over their
    number less one. *)
Lemma std_dropna values :
  Pandas.std values =
    if (length (dropna values) <=? 1)%nat then S754_nan
    else sample_std (dropna values).
Proof.
  unfold Pandas.std, Pandas.var, sample_std, squared_deviations.
  pose proof (fold_var_step values Pandas.var_init) as Hfold.
  pose proof (fold_deviation_step_count (dropna values) 0 F64.zero F64.zero)
    as Hcount.
  cbn zeta in Hfold. cbn [Pandas.var_init Pandas.var_nobs Pandas.var_mean
    Pandas.var_ssqdm] in Hfold.
  rewrite Hfold in Hcount |- *. cbn [fst snd Nat.add] in Hcount |- *.
  rewrite Hcount.
  by destruct (length (dropna values) <=? 1)%nat.
Qed.


End Aggregate.

(** ** Concrete runs *)

(** The end-to-end example of the specification: one trial whose generator
    yields [{1, 2}] then [{2, 3}], with the exact estimator and no noiser. *)
Example end_to_end :
  fst (run_all_and_aggregate
         (Demo.simulator 1 [[[1; 2]; [2; 3]]]%nat Demo.exact_config None None)) =
  Ok ([ {| num_sets := 1; estimated_cardinality := F64.of_nat 2;
           true_cardinality := 2; run_index := 0;
           rel_error := S754_zero false |};
        {| num_sets := 2; estimated_cardinality := F64.of_nat 3;
           true_cardinality := 3; run_index := 0;
           rel_error := S754_zero false |} ],
      [ {| agg_num_sets := 1;
           estimated_cardinality_mean := F64.of_nat 2;
           estimated_cardinality_std := S754_nan;
           true_cardinality_mean := F64.of_nat 2;
           true_cardinality_std := S754_nan;
           relative_error_mean := S754_zero false;
           relative_error_std := S754_nan |};
        {| agg_num_sets := 2;
           estimated_cardinality_mean := F64.of_nat 3;
           estimated_cardinality_std := S754_nan;
           true_cardinality_mean := F64.of_nat 3;
           true_cardinality_std := S754_nan;
           relative_error_mean := S754_zero false;
           relative_error_std := S754_nan |} ]).
Proof. vm_compute. reflexivity. Qed.

(** Two identical trials: every standard deviation is 0. *)
Example identical_trials_std_zero :
  exists df,
    fst (run_all_and_aggregate
           (Demo.simulator 2 [[[1; 2]]; [[1; 2]]]%nat Demo.exact_config
              None None)) =
    Ok (df,
        [ {| agg_num_sets := 1;
             estimated_cardinality_mean := F64.of_nat 2;
             estimated_cardinality_std := S754_zero false;
             true_cardinality_mean := F64.of_nat 2;
             true_cardinality_std := S754_zero false;
             relative_error_mean := S754_zero false;
             relative_error_std := S754_zero false |} ]).
Proof. eexists. vm_compute. reflexivity. Qed.

(** The standard deviation of 1 and 3 is the square root of 2. *)
Example sample_std_1_3 :
  sample_std [F64.of_nat 1; F64.of_nat 3] = F64.sqrt (F64.of_nat 2).
Proof. vm_compute. reflexivity. Qed.

(** C1, as stated, fails: with a noiser that adds a phantom identifier, the
    first row of a trial whose first set is empty has [true_cardinality = 0],
    an estimate of 1 and the relative error [+infinity], not NaN. *)
Lemma relative_error_not_nan :
  exists df df_agg row,
    fst (run_all_and_aggregate
           (Demo.simulator 1 [[[]; [7]]]%nat Demo.noised_config None None)) =
      Ok (df, df_agg) /\
    row ∈ df /\
    true_cardinality row = 0 /\
    estimated_cardinality row = F64.of_nat 1 /\
    rel_error row = S754_infinity false /\
    rel_error row <> S754_nan.
Proof.
  eexists _, _, _. split; [vm_compute; reflexivity|].
  split; [apply list_elem_of_here|]. by cbn.
Qed.

(** With the exact estimator, the first row of a trial whose first set is
    empty has the relative error [0 / 0], NaN; run after a trial that yields
    no set, the same trial makes the division raise. *)
Lemma relative_error_of_rows_witness :
  (exists df df_agg row,
     fst (run_all_and_aggregate
            (Demo.simulator 1 [[[]; [7]]]%nat Demo.exact_config None None)) =
       Ok (df, df_agg) /\
     row ∈ df /\
     true_cardinality row = 0 /\
     rel_error row = S754_nan) /\
  fst (run_all_and_aggregate
         (Demo.simulator 2 [[]; [[]; [7]]]%nat Demo.exact_config None None)) =
    Raise ZeroDivisionError.
Proof.
  split.
  - pose proof (proj1 (relative_error_of_rows
      (Demo.simulator 1 [[[]; [7]]]%nat Demo.exact_config None None))) as Hthm.
    remember (fst (run_all_and_aggregate
      (Demo.simulator 1 [[[]; [7]]]%nat Demo.exact_config None None)))
      as r eqn:Er.
    vm_compute in Er. subst r.
    eexists _, _, _. split; [reflexivity|].
    split; [apply list_elem_of_here|]. split; [reflexivity|].
    exact (proj2 (proj2 (Hthm _ (list_elem_of_here _ _)) eq_refl)).
  - assert (division_raises
      (next_inputs 2
         (Demo.simulator 2 [[]; [[]; [7]]]%nat Demo.exact_config None None))
      = true) as Hraises by (vm_compute; reflexivity).
    apply division_raises_true in Hraises as [Hno Hfirst].
    exact (proj2 (relative_error_of_rows
      (Demo.simulator 2 [[]; [[]; [7]]]%nat Demo.exact_config None None))
      eq_refl Hno Hfirst).
Defined.

(** The sets [{1, 2}] and [{2, 3}] (the latter yielded as [2, 3, 2]): the
    second row counts the three elements of their union. *)
Lemma true_cardinality_exact_witness :
  exists df row,
    fst (run_one
           (Demo.simulator 1 [[[1; 2]; [2; 3; 2]]]%nat Demo.exact_config None None)) =
      Ok df /\
    length df = 2 /\
    df !! 1 = Some row /\
    t_num_sets row = 2 /\
    t_true_cardinality row = 3.
Proof.
  destruct (true_cardinality_exact
    (Demo.simulator 1 [[[1; 2]; [2; 3; 2]]]%nat Demo.exact_config None None))
    as (df & Hdf & Hlen & Hrows).
  destruct (Hrows 2) as (row & Hrow & Hnum & Hcard & _); [vm_compute; lia|].
  exists df, row. split; [exact Hdf|]. split; [exact Hlen|].
  split; [exact Hrow|]. split; [exact Hnum|].
  rewrite Hcard. vm_compute. reflexivity.
Defined.

(** Two simulators with the same seeds, one without sinks and one with two,
    built under different entropy, return the same tables. *)
Lemma same_seeds_same_tables_witness :
  exists df df_agg,
    fst (run_all_and_aggregate
           (init 2 (Demo.scripted [[[1]]; [[2]; [2; 3]]]%nat) Demo.exact_config
              (Some 42%Z) (Some 0%Z) None None (0%Z, 0%Z))) = Ok (df, df_agg) /\
    fst (run_all_and_aggregate
           (init 2 (Demo.scripted [[[1]]; [[2]; [2; 3]]]%nat) Demo.exact_config
              (Some 42%Z) (Some 0%Z) (Some Demo.good_handle)
              (Some Demo.good_handle) (7%Z, 9%Z))) = Ok (df, df_agg).
Proof.
  destruct (same_seeds_same_tables 2
              (Demo.scripted [[[1]]; [[2]; [2; 3]]]%nat) Demo.exact_config
              42%Z 0%Z None None (Some Demo.good_handle)
              (Some Demo.good_handle) (0%Z, 0%Z) (7%Z, 9%Z))
    as [_ Hsame].
  destruct (fst (run_all_and_aggregate
           (init 2 (Demo.scripted [[[1]]; [[2]; [2; 3]]]%nat) Demo.exact_config
              (Some 42%Z) (Some 0%Z) None None (0%Z, 0%Z))))
    as [[df1 df_agg1]|e1] eqn:E1; [|vm_compute in E1; discriminate].
  destruct (fst (run_all_and_aggregate
           (init 2 (Demo.scripted [[[1]]; [[2]; [2; 3]]]%nat) Demo.exact_config
              (Some 42%Z) (Some 0%Z) (Some Demo.good_handle)
              (Some Demo.good_handle) (7%Z, 9%Z))))
    as [[df2 df_agg2]|e2] eqn:E2; [|vm_compute in E2; discriminate].
  destruct (Hsame df1 df_agg1 df2 df_agg2 eq_refl eq_refl) as [-> ->].
  exists df2, df_agg2. split; reflexivity.
Defined.

(** Two runs yielding one and two sets: three rows, run 0 first. *)
Lemma raw_table_layout_witness :
  exists df df_agg,
    fst (run_all_and_aggregate
           (Demo.simulator 2 [[[1]]; [[2]; [2; 3]]]%nat Demo.exact_config
              None None)) = Ok (df, df_agg) /\
    length df = 3 /\
    run_index <$> df = [0; 1; 1] /\
    size (list_to_set (run_index <$> df) : gset nat) = 2.
Proof.
  destruct (fst (run_all_and_aggregate
           (Demo.simulator 2 [[[1]]; [[2]; [2; 3]]]%nat Demo.exact_config
              None None)))
    as [[df df_agg]|e] eqn:E; [|vm_compute in E; discriminate].
  destruct (raw_table_layout _ df df_agg E)
    as (_ & _ & _ & Hindex & Hlength & _ & Hall).
  exists df, df_agg. split; [reflexivity|].
  split; [rewrite Hlength; vm_compute; reflexivity|].
  split; [rewrite Hindex; vm_compute; reflexivity|].
  apply Hall. vm_compute. repeat constructor; discriminate.
Defined.

(** C5, as stated, fails: with two runs of which the second yields no set,
    the raw table has the single run index 0, not two distinct ones. *)
Lemma one_run_index_for_two_runs :
  exists df df_agg,
    fst (run_all_and_aggregate
           (Demo.simulator 2 [[[1]]; []]%nat Demo.exact_config None None)) =
      Ok (df, df_agg) /\
    num_runs (Demo.simulator 2 [[[1]]; []]%nat Demo.exact_config None None) = 2%Z /\
    run_index <$> df = [0] /\
    size (list_to_set (run_index <$> df) : gset nat) = 1 /\
    size (list_to_set (run_index <$> df) : gset nat) <> 2.
Proof.
  eexists _, _. split; [vm_compute; reflexivity|].
  split; [reflexivity|]. split; [reflexivity|]. split; [reflexivity|].
  vm_compute. discriminate.
Qed.



(** A trial of two sets: one draw, the seed 42, and two sketches made with it. *)
Lemma one_seed_per_trial_witness :
  exists made,
    calls (snd (run_one
      (Demo.simulator 1 [[[5]; [5; 6]]]%nat Demo.exact_config None None))) =
      made /\
    List.filter is_randint made = [CallRandint (2 ^ 32 - 1) 42] /\
    List.filter is_sketch_factory made =
      [CallSketchFactory 42; CallSketchFactory 42].
Proof.
  destruct (one_seed_per_trial
    (Demo.simulator 1 [[[5]; [5; 6]]]%nat Demo.exact_config None None))
    as (seed & made & Hcalls & Hrandint & _ & Hdraw & Hfactory).
  assert (seed = 42%Z) as -> by (vm_compute in Hdraw; congruence).
  exists made. split; [exact Hcalls|]. split; [exact Hrandint|exact Hfactory].
Defined.

(** A trial of two sets with the phantom noiser: the noiser is called on the
    two finished sketches, the estimator on the prefixes of the noised ones. *)
Lemma noiser_after_insertions_witness :
  exists inserting noising estimating,
    calls (snd (run_one
      (Demo.simulator 1 [[[5]; [5; 6]]]%nat Demo.noised_config None None))) =
      [CallSetGeneratorFactory; CallRandint (2 ^ 32 - 1) 42]
      ++ inserting ++ noising ++ estimating /\
    noising =
      [CallNoiser {| Demo.sk_seed := 42; Demo.sk_ids := [5]%nat |};
       CallNoiser {| Demo.sk_seed := 42; Demo.sk_ids := [5; 6]%nat |}] /\
    estimating =
      [CallEstimator [ {| Demo.sk_seed := 42; Demo.sk_ids := [0; 5]%nat |} ];
       CallEstimator [ {| Demo.sk_seed := 42; Demo.sk_ids := [0; 5]%nat |};
                       {| Demo.sk_seed := 42; Demo.sk_ids := [0; 5; 6]%nat |} ]].
Proof.
  destruct (noiser_after_insertions
    (Demo.simulator 1 [[[5]; [5; 6]]]%nat Demo.noised_config None None))
    as (inserting & noising & estimating & df
        & Hcalls & _ & _ & Hnoising & Hestimating & _).
  exists inserting, noising, estimating.
  split; [exact Hcalls|]. split; [exact Hnoising|exact Hestimating].
Defined.

(** A raw sink on a full disk: the tables are computed, [aggregate] being
    the last call of the computation; the write of the raw table is the last
    call and its error is the result. *)
Lemma sinks_written_after_tables_witness :
  exists df df_agg trials,
    fst (run_all_and_aggregate
           (without_sinks
              (Demo.simulator 1 [[[1]]]%nat Demo.exact_config
                 (Some Demo.full_disk) (Some Demo.good_handle)))) =
      Ok (df, df_agg) /\
    fst (run_all_and_aggregate
           (Demo.simulator 1 [[[1]]]%nat Demo.exact_config
              (Some Demo.full_disk) (Some Demo.good_handle))) =
      Raise (OSError 28) /\
    calls (snd (run_all_and_aggregate
           (Demo.simulator 1 [[[1]]]%nat Demo.exact_config
              (Some Demo.full_disk) (Some Demo.good_handle)))) =
      trials ++ [CallAggregate df; CallToCsv (CsvRaw df)].
Proof.
  destruct (sinks_written_after_tables
    (Demo.simulator 1 [[[1]]]%nat Demo.exact_config
       (Some Demo.full_disk) (Some Demo.good_handle)))
    as (computed & _ & _ & Hmatch).
  destruct (fst (run_all_and_aggregate
           (without_sinks
              (Demo.simulator 1 [[[1]]]%nat Demo.exact_config
                 (Some Demo.full_disk) (Some Demo.good_handle)))))
    as [[df df_agg]|e] eqn:E; [|vm_compute in E; discriminate].
  destruct Hmatch as (_ & (trials & -> & _) & written & Hcalls & Hwrite).
  change (fst (run_all_and_aggregate
           (Demo.simulator 1 [[[1]]]%nat Demo.exact_config
              (Some Demo.full_disk) (Some Demo.good_handle))) =
          Raise (OSError 28) /\ written = [CallToCsv (CsvRaw df)]) in Hwrite.
  destruct Hwrite as [Hraise ->].
  exists df, df_agg, trials.
  split; [reflexivity|]. split; [exact Hraise|].
  rewrite Hcalls. cbn [calls Demo.simulator init app].
  by rewrite <- app_assoc.
Defined.



(** A run in which no trial yields a set returns two empty tables. *)
Example no_set_at_all :
  fst (run_all_and_aggregate
         (Demo.simulator 2 [[]; []]%nat Demo.exact_config None None)) =
    Ok ([], []).
Proof. vm_compute. reflexivity. Qed.

(** The group mean of 0.1, 0.2 and 0.3 is 0.19999999999999998, the
    quotient by 3 of their compensated sum 0.6; the sum of the three cells
    from left to right is 0.6000000000000001, and its quotient by 3 is
    0.20000000000000004. *)
Example mean_is_compensated :
  let cells := [ S754_finite false 7205759403792794 (-56);
                 S754_finite false 7205759403792794 (-55);
                 S754_finite false 5404319552844595 (-54) ] in
  Pandas.mean cells = S754_finite false 7205759403792793 (-55) /\
  arithmetic_mean cells = S754_finite false 7205759403792795 (-55).
Proof. vm_compute. split; reflexivity. Qed.

(** * Further properties *)

(** ** [relative_error] on finite numbers *)

Section RelativeError.

Lemma binary_normalize_not_nan prec emax m e szero :
  binary_normalize prec emax m e szero <> S754_nan.
Proof.
  unfold binary_normalize, binary_round.
  destruct m as [|p|p]; [discriminate| |];
    destruct (shl_align _ _ _) as [mz ez];
    apply binary_round_aux_not_nan; lia.
Qed.

Lemma div_finite_not_nan sx mx ex sy my ey :
  F64.div (S754_finite sx mx ex) (S754_finite sy my ey) <> S754_nan.
Proof.
  unfold F64.div, SFdiv, SFdiv_core_binary.
  set (m' := match (ex - ey - _)%Z with
             | Z0 => Zpos mx
             | Zpos _ => Z.shiftl (Zpos mx) _
             | Zneg _ => 0%Z
             end).
  assert (0 <= m')%Z as Hm'.
  { unfold m'. destruct (ex - ey - _)%Z; try lia.
    apply Z.shiftl_nonneg. lia. }
  pose proof (Z.div_pos m' (Zpos my) Hm' ltac:(lia)) as Hq.
  unfold Z.div in Hq.
  destruct (Z.div_eucl m' (Zpos my)) as [q r].
  apply binary_round_aux_not_nan. exact Hq.
Qed.

Lemma sub_then_div_same s m e :
  F64.div (F64.sub (S754_finite s m e) (S754_finite s m e))
    (S754_finite s m e) = S754_zero s.
Proof.
  unfold F64.sub, F64.div, SFsub.
  rewrite Z.sub_diag. cbn. by destruct s.
Qed.

(** The relative error of a finite non-zero number against itself is a
    zero: an estimate equal to the truth has no error. *)
Theorem relative_error_same s m e :
  relative_error (S754_finite s m e) (S754_finite s m e) = S754_zero s.
Proof. apply sub_then_div_same. Qed.

Lemma sub_then_div_not_nan estimated s m e :
  F64.is_finite estimated = true ->
  F64.div (F64.sub estimated (S754_finite s m e)) (S754_finite s m e)
    <> S754_nan.
Proof.
  intros Hfinite.
  destruct estimated as [s0| | |s0 m0 e0]; try discriminate.
  - destruct s0; apply div_finite_not_nan.
  - pose proof (binary_normalize_not_nan F64.prec F64.emax
      (cond_Zopp s0 (Zpos (fst (shl_align m0 e0 (Z.min e0 e))))
       - cond_Zopp s (Zpos (fst (shl_align m e (Z.min e0 e)))))
      (Z.min e0 e) false) as Hsub.
    change (F64.sub (S754_finite s0 m0 e0) (S754_finite s m e))
      with (binary_normalize F64.prec F64.emax
        (cond_Zopp s0 (Zpos (fst (shl_align m0 e0 (Z.min e0 e))))
         - cond_Zopp s (Zpos (fst (shl_align m e (Z.min e0 e)))))
        (Z.min e0 e) false).
    destruct (binary_normalize _ _ _ _ _) as [sd|sd| |sd md ed];
      [discriminate|discriminate|done|apply div_finite_not_nan].
Qed.

(** For an estimate that is neither NaN nor infinite and a truth that is a
    finite non-zero number, the relative error is never NaN. *)
Theorem relative_error_defined estimated s m e :
  F64.is_finite estimated = true ->
  relative_error estimated (S754_finite s m e) <> S754_nan.
Proof. apply sub_then_div_not_nan. Qed.

End RelativeError.

(** ** Further properties of the raw table *)

Section RawTable.

Context {Id : Type} `{Countable Id}.
Context {Sketch RandomState : Type}.
Context `{!SketchBase Id Sketch} `{!RandomStateBase RandomState}.

Implicit Types self : Simulator Id Sketch RandomState.

Lemma raw_row_relative_error self df df_agg row :
  fst (run_all_and_aggregate self) = Ok (df, df_agg) -> row ∈ df ->
  rel_error row =
    relative_error (estimated_cardinality row)
      (F64.of_nat (true_cardinality row)).
Proof.
  intros (_ & -> & _)%run_all_and_aggregate_fst_Ok
         (r & -> & _)%list_elem_of_fmap.
  done.
Qed.

(** In a raw table returned by [run_all_and_aggregate], a row whose estimate
    is the float of its true cardinality, the latter in [1 .. 2^53 - 1], has
    the relative error [+0]. *)
Theorem exact_estimate_no_error self df df_agg row :
  fst (run_all_and_aggregate self) = Ok (df, df_agg) -> row ∈ df ->
  0 < true_cardinality row ->
  (Z.of_nat (true_cardinality row) < 2 ^ 53)%Z ->
  estimated_cardinality row = F64.of_nat (true_cardinality row) ->
  rel_error row = S754_zero false.
Proof.
  intros Hrun Hrow Hpos Hsmall Hexact.
  rewrite (raw_row_relative_error self df df_agg row Hrun Hrow), Hexact.
  destruct (of_nat_finite _ Hpos Hsmall) as (m & e & ->).
  apply sub_then_div_same.
Qed.

(** In a raw table returned by [run_all_and_aggregate], the relative error
    of a row is NaN only if its true cardinality is 0 or its estimate is NaN
    or infinite (for true cardinalities below [2^53]). *)
Theorem relative_error_nan_only_at_zero self df df_agg row :
  fst (run_all_and_aggregate self) = Ok (df, df_agg) -> row ∈ df ->
  (Z.of_nat (true_cardinality row) < 2 ^ 53)%Z ->
  rel_error row = S754_nan ->
  true_cardinality row = 0 \/ F64.is_finite (estimated_cardinality row) = false.
Proof.
  intros Hrun Hrow Hsmall Hnan.
  rewrite (raw_row_relative_error self df df_agg row Hrun Hrow) in Hnan.
  destruct (decide (true_cardinality row = 0)) as [|Hne]; [by left|]. right.
  destruct (of_nat_finite (true_cardinality row)) as (m & e & Hfin);
    [lia|done|].
  rewrite Hfin in Hnan.
  destruct (F64.is_finite (estimated_cardinality row)) eqn:Hfinite; [|done].
  by apply sub_then_div_not_nan in Hnan.
Qed.

End RawTable.

(** ** Further properties of one trial *)

Section TrialTable.

Context {Id : Type} `{Countable Id}.
Context {Sketch RandomState : Type}.
Context `{!SketchBase Id Sketch} `{!RandomStateBase RandomState}.

Implicit Types self : Simulator Id Sketch RandomState.

Lemma run_one_table self df :
  fst (run_one self) = Ok df ->
  df = trial_table (estimator_config self)
         (fst (randint seed_bound (sketch_random_state self)))
         (fst (set_generator_factory self (set_random_state self))).
Proof.
  destruct (run_one_outcome self) as (Hdf & _ & _).
  rewrite Hdf. by intros [= <-].
Qed.

Lemma trial_table_lookup (config : EstimatorConfig Sketch) seed
    (sets : list (list Id)) i row :
  trial_table config seed sets !! i = Some row ->
  i < length sets /\
  row = prefix_row (estimator config)
          (final_sketches config (built_sketches config seed sets)) sets i.
Proof.
  unfold trial_table. rewrite list_lookup_fmap. intros Hrow.
  destruct (seq 0 (length sets) !! i) as [k|] eqn:Ek; [|done].
  apply lookup_seq in Ek as [-> Hlt]. by injection Hrow as <-.
Qed.

Lemma union_of_prefix_mono i j (sets : list (list Id)) :
  i <= j -> union_of_prefix i sets ⊆ union_of_prefix j sets.
Proof.
  intros Hij x. unfold union_of_prefix. rewrite !elem_of_union_list.
  intros (X & HX & Hx). exists X. split; [|done].
  rewrite fmap_take in HX |- *.
  apply elem_of_take in HX as (k & Hk & Hlt).
  apply elem_of_take. exists k. split; [done|lia].
Qed.

Lemma size_list_to_set_le (ids : list Id) :
  size (list_to_set ids : gset Id) <= length ids.
Proof.
  induction ids as [|x ids IH]; [done|].
  cbn. rewrite size_union_alt, size_singleton.
  assert (list_to_set ids ∖ {[x]} ⊆ (list_to_set ids : gset Id)) as Hsub
    by (by intros y [? _]%elem_of_difference).
  apply subseteq_size in Hsub. lia.
Qed.

Lemma size_union_of_lists_le (sets : list (list Id)) :
  size (⋃ (list_to_set <$> sets) : gset Id) <= sum_list (length <$> sets).
Proof.
  induction sets as [|ids sets IH]; [done|].
  cbn. rewrite size_union_alt.
  pose proof (size_list_to_set_le ids) as Hhead.
  assert ((⋃ (list_to_set <$> sets)) ∖ list_to_set ids
          ⊆ (⋃ (list_to_set <$> sets) : gset Id)) as Hsub
    by (by intros y [? _]%elem_of_difference).
  apply subseteq_size in Hsub. lia.
Qed.

(** Down the table of a trial the true cardinality never decreases: the
    running union only grows. *)
Theorem true_cardinality_monotone self df i j row_i row_j :
  fst (run_one self) = Ok df -> i <= j ->
  df !! i = Some row_i -> df !! j = Some row_j ->
  t_true_cardinality row_i <= t_true_cardinality row_j.
Proof.
  intros -> %run_one_table Hij
    [_ ->]%trial_table_lookup [_ ->]%trial_table_lookup.
  cbn. apply subseteq_size, union_of_prefix_mono. lia.
Qed.

(** The true cardinality of the row of prefix length [i + 1] is at most the
    number of identifiers yielded in the first [i + 1] collections. *)
Theorem true_cardinality_at_most_yielded self df i row :
  fst (run_one self) = Ok df -> df !! i = Some row ->
  t_true_cardinality row <=
    sum_list (length <$>
      take (i + 1) (fst (set_generator_factory self (set_random_state self)))).
Proof.
  intros -> %run_one_table [_ ->]%trial_table_lookup.
  cbn. apply size_union_of_lists_le.
Qed.

(** The true cardinalities of a trial depend on each yielded collection as
    a set only: trials whose generators yield collections with the same
    elements, in whatever order and however often repeated, have the same
    [true_cardinality] column. *)
Theorem true_cardinality_of_sets self1 self2 df1 df2 :
  Forall2 (fun ids1 ids2 => list_to_set ids1 =@{gset Id} list_to_set ids2)
    (fst (set_generator_factory self1 (set_random_state self1)))
    (fst (set_generator_factory self2 (set_random_state self2))) ->
  fst (run_one self1) = Ok df1 -> fst (run_one self2) = Ok df2 ->
  t_true_cardinality <$> df1 = t_true_cardinality <$> df2.
Proof.
  intros Hsets -> %run_one_table -> %run_one_table.
  set (sets1 := fst (set_generator_factory self1 (set_random_state self1))) in *.
  set (sets2 := fst (set_generator_factory self2 (set_random_state self2))) in *.
  assert ((list_to_set <$> sets1 : list (gset Id)) = list_to_set <$> sets2)
    as Heq.
  { clearbody sets1 sets2. induction Hsets as [|???? Hhead _ IH]; [done|].
    cbn. by rewrite Hhead, IH. }
  unfold trial_table. rewrite <- !list_fmap_compose.
  rewrite (Forall2_length _ _ _ Hsets).
  apply list_fmap_ext. intros _ k _. cbn. unfold union_of_prefix.
  by rewrite !fmap_take, Heq.
Qed.

(** A row depends on the collections yielded up to it only: when a second
    trial, with the same configuration and the same sketch random state,
    has a generator that yields the same collections and then more, its
    table starts with the table of the first trial. *)
Theorem earlier_rows_unchanged self1 self2 df1 df2 more :
  estimator_config self1 = estimator_config self2 ->
  sketch_random_state self1 = sketch_random_state self2 ->
  fst (set_generator_factory self2 (set_random_state self2)) =
    fst (set_generator_factory self1 (set_random_state self1)) ++ more ->
  fst (run_one self1) = Ok df1 -> fst (run_one self2) = Ok df2 ->
  take (length df1) df2 = df1.
Proof.
  intros Hconfig Hrs Hsets -> %run_one_table -> %run_one_table.
  rewrite <- Hconfig, <- Hrs, Hsets.
  set (config := estimator_config self1).
  set (seed := fst (randint seed_bound (sketch_random_state self1))).
  set (sets := fst (set_generator_factory self1 (set_random_state self1))).
  clearbody config seed sets.
  rewrite length_trial_table. unfold trial_table.
  rewrite length_app, seq_app, fmap_app, take_app_length'
    by (by rewrite length_fmap, length_seq).
  apply list_fmap_ext. intros k i [-> Hi]%lookup_seq. cbn in Hi |- *.
  unfold prefix_row, union_of_prefix. f_equal.
  - f_equal. unfold final_sketches, built_sketches.
    destruct (noiser config); rewrite ?fmap_app;
      apply take_app_le; rewrite ?length_fmap; lia.
  - by rewrite take_app_le by lia.
Qed.

(** [run_one] changes nothing of [self] but the two random states: the run
    count, the factory, the configuration and the sinks stay, the set random
    state becomes what the generator leaves, and no call of the trial
    writes to a sink. *)
Theorem run_one_frame self :
  let self' := snd (run_one self) in
  num_runs self' = num_runs self /\
  set_generator_factory self' = set_generator_factory self /\
  estimator_config self' = estimator_config self /\
  file_handle_raw self' = file_handle_raw self /\
  file_handle_agg self' = file_handle_agg self /\
  set_random_state self' =
    snd (set_generator_factory self (set_random_state self)) /\
  exists made,
    calls self' = calls self ++ made /\
    Forall (fun c => is_to_csv c = false) made.
Proof.
  cbn zeta. rewrite run_one_spec.
  destruct (set_generator_factory self (set_random_state self))
    as [sets set_rs].
  destruct (randint seed_bound (sketch_random_state self)) as [seed sketch_rs].
  cbn. split_and!; try done.
  eexists. split; [done|]. apply trial_calls_not_to_csv.
Qed.

End TrialTable.

(** ** Further properties of [run_all_and_aggregate]: the state it leaves *)

Section Streams.

Context {Id : Type} `{Countable Id}.
Context {Sketch RandomState : Type}.
Context `{!SketchBase Id Sketch} `{!RandomStateBase RandomState}.

Implicit Types self : Simulator Id Sketch RandomState.

(** Whatever its outcome, the method leaves [self] as the trials left it,
    apart from the calls made to [aggregate] and to the sinks. *)
Lemma run_all_and_aggregate_state self :
  exists written,
    snd (run_all_and_aggregate self) =
      log written (after_trials (Z.to_nat (num_runs self)) self).
Proof.
  rewrite run_all_and_aggregate_spec. cbn zeta.
  destruct (trial_frames _ 0 _) as [|frame frames].
  { exists []. by rewrite log_nil. }
  destruct (division_raises _).
  { exists []. by rewrite log_nil. }
  generalize (with_relative_error <$> concat (frame :: frames)). intros df.
  generalize (aggregate df). intros df_agg.
  unfold write_sink.
  destruct (file_handle_raw self) as [raw|];
    [destruct (fh_write raw (CsvRaw df))|];
    try (destruct (file_handle_agg self) as [agg|];
      [destruct (fh_write agg (CsvAgg df_agg))|]);
    cbn [snd]; rewrite ?log_log;
    first [by eexists | exists []; by rewrite log_nil].
Qed.

Lemma random_states_after_iter
    (factory : RandomState -> list (list Id) * RandomState) n
    (set_rs sketch_rs : RandomState) :
  random_states_after factory n set_rs sketch_rs =
    (Nat.iter n (fun rs => snd (factory rs)) set_rs,
     Nat.iter n (fun rs => snd (randint seed_bound rs)) sketch_rs).
Proof.
  revert set_rs sketch_rs. induction n as [|n IH]; intros set_rs sketch_rs.
  - done.
  - cbn [random_states_after]. rewrite IH, !Nat.iter_succ_r. done.
Qed.

Lemma trial_inputs_add
    (factory : RandomState -> list (list Id) * RandomState) n m
    (set_rs sketch_rs : RandomState) :
  trial_inputs factory (n + m) set_rs sketch_rs =
    trial_inputs factory n set_rs sketch_rs ++
    trial_inputs factory m
      (fst (random_states_after factory n set_rs sketch_rs))
      (snd (random_states_after factory n set_rs sketch_rs)).
Proof.
  revert set_rs sketch_rs. induction n as [|n IH]; intros set_rs sketch_rs.
  - done.
  - cbn [Nat.add trial_inputs random_states_after].
    destruct (factory set_rs) as [sets set_rs'].
    destruct (randint seed_bound sketch_rs) as [seed sketch_rs'].
    cbn. by rewrite IH.
Qed.

(** A call of [run_all_and_aggregate] with [R] runs, whether it returns or
    raises, has drawn exactly [R] seeds from the sketch random state and has
    let exactly [R] generators advance the set random state; it changes
    nothing else of the configuration of [self]. *)
Theorem random_states_advance self :
  let R := Z.to_nat (num_runs self) in
  let self' := snd (run_all_and_aggregate self) in
  sketch_random_state self' =
    Nat.iter R (fun rs => snd (randint (2 ^ 32 - 1) rs))
      (sketch_random_state self) /\
  set_random_state self' =
    Nat.iter R (fun rs => snd (set_generator_factory self rs))
      (set_random_state self) /\
  num_runs self' = num_runs self /\
  set_generator_factory self' = set_generator_factory self /\
  estimator_config self' = estimator_config self /\
  file_handle_raw self' = file_handle_raw self /\
  file_handle_agg self' = file_handle_agg self.
Proof.
  cbn zeta. destruct (run_all_and_aggregate_state self) as [written ->].
  unfold after_trials. rewrite random_states_after_iter. done.
Qed.

(** A second call on the same simulator does not start over: its trials are
    the trials [R .. 2R - 1] of the two streams, numbered again from 0, so
    that its raw table is made of the frames of these trials. *)
Theorem second_call_continues self :
  let R := Z.to_nat (num_runs self) in
  let self' := snd (run_all_and_aggregate self) in
  next_inputs R self = take R (next_inputs (R + R) self) /\
  next_inputs R self' = drop R (next_inputs (R + R) self) /\
  forall df df_agg,
    fst (run_all_and_aggregate self') = Ok (df, df_agg) ->
    df = with_relative_error <$>
           concat (trial_frames (estimator_config self) 0
                     (drop R (next_inputs (R + R) self))).
Proof.
  cbn zeta. set (R := Z.to_nat (num_runs self)).
  destruct (run_all_and_aggregate_state self) as [written Hstate].
  fold R in Hstate.
  assert (next_inputs (R + R) self =
          next_inputs R self ++
          next_inputs R (snd (run_all_and_aggregate self))) as Hsplit.
  { rewrite Hstate. unfold next_inputs at 1. rewrite trial_inputs_add. done. }
  assert (next_inputs R (snd (run_all_and_aggregate self)) =
          drop R (next_inputs (R + R) self)) as Hdrop.
  { rewrite Hsplit. by rewrite drop_app_length' by (by rewrite length_next_inputs). }
  split.
  { rewrite Hsplit. by rewrite take_app_length' by (by rewrite length_next_inputs). }
  split; [exact Hdrop|].
  intros df df_agg (_ & -> & _)%run_all_and_aggregate_fst_Ok.
  rewrite <- Hdrop, Hstate. done.
Qed.

(** A run count that is zero or negative gives no trial at all: the method
    raises the [ValueError] of the empty concatenation and leaves [self] as
    it was, with no call made and no random state advanced. *)
Theorem no_runs_no_effect self :
  (num_runs self <= 0)%Z ->
  fst (run_all_and_aggregate self) =
    Raise (ValueError "No objects to concatenate") /\
  snd (run_all_and_aggregate self) = self.
Proof.
  intros Hle. by rewrite run_all_and_aggregate_no_runs.
Qed.

(** With at least one run and no sink, the method raises
    [ZeroDivisionError] exactly when a trial yields no set and the first set
    of a trial is empty. With sinks it raises it for these trials too, after
    the calls of the trials and before any call of [aggregate] or of a
    sink. *)
Theorem zero_division_exactly self :
  (0 < num_runs self)%Z ->
  let inputs := next_inputs (Z.to_nat (num_runs self)) self in
  let raises :=
    (exists input, input ∈ inputs /\ snd input = []) /\
    (exists input sets, input ∈ inputs /\ snd input = [] :: sets) in
  (fst (run_all_and_aggregate (without_sinks self)) = Raise ZeroDivisionError
   <-> raises) /\
  (raises ->
   fst (run_all_and_aggregate self) = Raise ZeroDivisionError /\
   calls (snd (run_all_and_aggregate self)) =
     calls self ++ trials_calls (estimator_config self) inputs).
Proof.
  intros Hpos inputs raises. unfold raises.
  rewrite <- division_raises_true. split.
  - destruct (division_raises inputs) eqn:Hraises.
    + by rewrite run_all_and_aggregate_division_raises.
    + by rewrite run_all_and_aggregate_without_sinks.
  - intros Hraises.
    by rewrite run_all_and_aggregate_division_raises.
Qed.

End Streams.

(** ** Further properties of the raw table and of its aggregation *)

Section Groups.

Context {Id : Type} `{Countable Id}.
Context {Sketch RandomState : Type}.
Context `{!SketchBase Id Sketch} `{!RandomStateBase RandomState}.

Implicit Types self : Simulator Id Sketch RandomState.

Lemma aggregate_keys_sorted (df : list RawRow) :
  NoDup (agg_num_sets <$> aggregate df) /\
  Sorted le (agg_num_sets <$> aggregate df) /\
  forall k, k ∈ agg_num_sets <$> aggregate df <-> k ∈ num_sets <$> df.
Proof.
  assert (agg_num_sets <$> aggregate df = Pandas.group_keys (num_sets <$> df))
    as ->.
  { unfold aggregate. by rewrite <- list_fmap_compose, list_fmap_id. }
  split; [apply group_keys_NoDup|].
  split; [apply group_keys_Sorted|].
  intros k. apply elem_of_group_keys.
Qed.

Lemma keys_of_frame (config : EstimatorConfig Sketch) t seed
    (sets : list (list Id)) :
  (fun row => (r_run_index row, r_num_sets row)) <$>
    set_run_index t (trial_table config seed sets) =
  (fun i => (t, i + 1)) <$> seq 0 (length sets).
Proof.
  unfold set_run_index, trial_table. by rewrite <- !list_fmap_compose.
Qed.

Lemma keys_of_frames_NoDup (config : EstimatorConfig Sketch) t0
    (inputs : list (Z * list (list Id))) :
  NoDup ((fun row => (r_run_index row, r_num_sets row)) <$>
           concat (trial_frames config t0 inputs)).
Proof.
  revert t0. induction inputs as [|[seed sets] inputs IH]; intros t0.
  - cbn. apply NoDup_nil_2.
  - cbn [trial_frames concat]. rewrite fmap_app. apply NoDup_app.
    split_and!.
    + rewrite keys_of_frame. apply NoDup_fmap_2_strong; [|apply NoDup_seq].
      intros i j _ _ [=]. lia.
    + intros [t k]. rewrite keys_of_frame.
      intros (i & [= -> ->] & _)%list_elem_of_fmap
             (row & [= Hrun _] & Hrow)%list_elem_of_fmap.
      assert (t0 ∈ r_run_index <$> concat (trial_frames config (S t0) inputs))
        as Hin by (apply list_elem_of_fmap; exists row; by split).
      apply elem_of_run_index_trial_frames in Hin as (i' & _ & Hi' & _).
      lia.
    + apply IH.
Qed.

(** In a raw table returned by [run_all_and_aggregate] no two rows have the
    same pair of [run_index] and [num_sets]: the pair identifies the row. *)
Theorem run_index_num_sets_unique self df df_agg :
  fst (run_all_and_aggregate self) = Ok (df, df_agg) ->
  NoDup ((fun row => (run_index row, num_sets row)) <$> df).
Proof.
  intros (_ & -> & _)%run_all_and_aggregate_fst_Ok.
  rewrite <- list_fmap_compose.
  apply (keys_of_frames_NoDup (estimator_config self) 0).
Qed.

Lemma length_filter_fmap {A B} (f : A -> B) (P : B -> Prop)
    `{forall y, Decision (P y)} (l : list A) :
  length (filter P (f <$> l)) = length (filter (fun x => P (f x)) l).
Proof.
  induction l as [|x l IH]; [done|].
  cbn [fmap list_fmap]. rewrite !filter_cons.
  destruct (decide (P (f x))); cbn; by rewrite IH.
Qed.

Lemma length_filter_seq n k :
  1 <= k ->
  length (filter (fun i => i + 1 = k) (seq 0 n)) =
    if decide (k <= n) then 1 else 0.
Proof.
  intros Hk. induction n as [|n IH].
  - cbn. case_decide; [lia|done].
  - rewrite seq_S, filter_app, length_app, IH. cbn [Nat.add].
    rewrite filter_cons, filter_nil.
    repeat case_decide; cbn; lia.
Qed.

(** The rows of the group [k] among the frames of consecutive trials: one
    per trial that yielded at least [k] sets. *)
Lemma length_group_rows_frames (config : EstimatorConfig Sketch) t0
    (inputs : list (Z * list (list Id))) k :
  1 <= k ->
  length (group_rows k
            (with_relative_error <$> concat (trial_frames config t0 inputs))) =
  length (filter (fun input => k <= length (snd input)) inputs).
Proof.
  intros Hk. revert t0.
  induction inputs as [|[seed sets] inputs IH]; intros t0; [done|].
  cbn [trial_frames concat]. unfold group_rows in *.
  rewrite fmap_app, filter_app, length_app, IH, filter_cons.
  assert (length (filter (fun row => num_sets row = k)
            (with_relative_error <$>
               set_run_index t0 (trial_table config seed sets))) =
          if decide (k <= length sets) then 1 else 0) as ->.
  { unfold set_run_index, trial_table.
    rewrite <- !list_fmap_compose, length_filter_fmap.
    apply (length_filter_seq (length sets) k Hk). }
  cbn [snd]. case_decide; cbn; lia.
Qed.

(** In the raw table returned by [run_all_and_aggregate], the group of
    [num_sets = k] has one row per trial whose generator yielded at least
    [k] sets. *)
Theorem group_has_one_row_per_long_trial self df df_agg k :
  fst (run_all_and_aggregate self) = Ok (df, df_agg) -> 1 <= k ->
  length (group_rows k df) =
    length (filter (fun input => k <= length (snd input))
              (next_inputs (Z.to_nat (num_runs self)) self)).
Proof.
  intros (_ & -> & _)%run_all_and_aggregate_fst_Ok Hk.
  by apply length_group_rows_frames.
Qed.

Lemma elem_of_num_sets_frames (config : EstimatorConfig Sketch) t0
    (inputs : list (Z * list (list Id))) k :
  k ∈ num_sets <$>
        (with_relative_error <$> concat (trial_frames config t0 inputs)) <->
  1 <= k <= max_list ((fun input => length (snd input)) <$> inputs).
Proof.
  revert t0. induction inputs as [|[seed sets] inputs IH]; intros t0.
  - cbn. split; [by intros ?%elem_of_nil|lia].
  - cbn [trial_frames concat fmap list_fmap max_list snd].
    rewrite !fmap_app, elem_of_app, IH.
    assert (k ∈ num_sets <$>
              (with_relative_error <$>
                 set_run_index t0 (trial_table config seed sets)) <->
            1 <= k <= length sets) as ->.
    { unfold set_run_index, trial_table. rewrite <- !list_fmap_compose.
      rewrite list_elem_of_fmap. split.
      - intros (i & -> & [_ Hi]%elem_of_seq). cbn. lia.
      - intros Hk. exists (k - 1). split; [cbn; lia|].
        apply elem_of_seq. lia. }
    unfold id. lia.
Qed.

Lemma Sorted_le_seq j n : Sorted le (seq j n).
Proof.
  revert j. induction n as [|n IH]; intros j; [constructor|].
  cbn. constructor; [apply IH|].
  destruct n; constructor. lia.
Qed.

(** The aggregated table returned by [run_all_and_aggregate] has the keys
    [1, 2, ..., N] in this order, [N] being the largest number of sets that
    the generator of a trial yielded. *)
Theorem aggregated_keys self df df_agg :
  fst (run_all_and_aggregate self) = Ok (df, df_agg) ->
  agg_num_sets <$> df_agg =
    seq 1 (max_list ((fun input => length (snd input)) <$>
                       next_inputs (Z.to_nat (num_runs self)) self)).
Proof.
  intros (_ & -> & ->)%run_all_and_aggregate_fst_Ok.
  set (inputs := next_inputs (Z.to_nat (num_runs self)) self).
  set (df := with_relative_error <$>
               concat (trial_frames (estimator_config self) 0 inputs)).
  destruct (aggregate_keys_sorted df) as (Hnodup & Hsorted & Hkeys).
  apply (Sorted_unique le); [done|apply Sorted_le_seq|].
  apply NoDup_Permutation; [done|apply NoDup_seq|].
  intros k. rewrite Hkeys. unfold df.
  rewrite elem_of_num_sets_frames, elem_of_seq. fold inputs. lia.
Qed.

End Groups.

(** ** Further properties of [aggregate] *)

Section Partition.

Lemma sum_list_indicator (keys : list nat) (x : nat) :
  NoDup keys ->
  sum_list ((fun k => if decide (x = k) then 1 else 0) <$> keys) =
    if decide (x ∈ keys) then 1 else 0.
Proof.
  induction 1 as [|k keys Hk _ IH]; [done|].
  cbn. rewrite IH.
  destruct (decide (x = k)) as [->|Hne];
    destruct (decide (_ ∈ keys)) as [Hin|Hout];
    destruct (decide (_ ∈ _ :: keys)) as [Hin'|Hout'];
    try done;
    try (exfalso; apply Hout'; apply elem_of_cons; by auto);
    try (apply elem_of_cons in Hin' as [?|?]; done).
Qed.

Lemma sum_list_group_sizes (keys : list nat) (df : list RawRow) :
  NoDup keys ->
  (forall row, row ∈ df -> num_sets row ∈ keys) ->
  sum_list ((fun k => length (group_rows k df)) <$> keys) = length df.
Proof.
  intros Hnodup. induction df as [|row df IH]; intros Hkeys.
  - clear. induction keys as [|k keys IH]; [done|]. cbn in *. done.
  - assert (sum_list ((fun k => length (group_rows k (row :: df))) <$> keys) =
            sum_list ((fun k => if decide (num_sets row = k) then 1 else 0)
                        <$> keys) +
            sum_list ((fun k => length (group_rows k df)) <$> keys)) as ->.
    { clear. induction keys as [|k keys IH]; [done|].
      cbn [fmap list_fmap sum_list sum_list_with]. rewrite IH.
      unfold group_rows at 1. rewrite filter_cons.
      fold (group_rows k df).
      destruct (decide (num_sets row = k)); cbn; lia. }
    rewrite IH by (intros r Hr; apply Hkeys; by apply list_elem_of_further).
    rewrite sum_list_indicator by done.
    rewrite decide_True by (apply Hkeys, list_elem_of_here). done.
Qed.

(** The groups of [aggregate] share out the rows of the table: every row
    belongs to the group of exactly one row of the aggregated table, so the
    sizes of the groups add up to the number of rows. *)
Theorem groups_partition_rows (df : list RawRow) :
  sum_list ((fun a => length (group_rows (agg_num_sets a) df))
              <$> aggregate df) = length df.
Proof.
  destruct (aggregate_keys_sorted df) as (Hnodup & _ & Hkeys).
  rewrite <- (sum_list_group_sizes (agg_num_sets <$> aggregate df) df Hnodup).
  - by rewrite <- list_fmap_compose.
  - intros row Hrow. apply Hkeys, list_elem_of_fmap. eauto.
Qed.

(** Every standard deviation of a group with at most one row is NaN. *)
Lemma std_of_small_group (values : list spec_float) :
  length values <= 1 -> Pandas.std values = S754_nan.
Proof.
  intros Hlen. rewrite std_dropna.
  pose proof (length_dropna values) as Hdrop.
  by rewrite (proj2 (Nat.leb_le _ _)) by lia.
Qed.

End Partition.

Section SingleRun.

Context {Id : Type} `{Countable Id}.
Context {Sketch RandomState : Type}.
Context `{!SketchBase Id Sketch} `{!RandomStateBase RandomState}.

Implicit Types self : Simulator Id Sketch RandomState.

(** With a single run, every standard deviation of the aggregated table
    returned by [run_all_and_aggregate] is NaN: there is one sample only. *)
Theorem single_run_std_nan self df df_agg a :
  num_runs self = 1%Z ->
  fst (run_all_and_aggregate self) = Ok (df, df_agg) -> a ∈ df_agg ->
  estimated_cardinality_std a = S754_nan /\
  true_cardinality_std a = S754_nan /\
  relative_error_std a = S754_nan.
Proof.
  intros Hone Hrun Ha.
  pose proof Hrun as (_ & _ & ->)%run_all_and_aggregate_fst_Ok.
  assert (1 <= agg_num_sets a) as Hkey.
  { destruct (aggregate_keys_sorted df) as (_ & _ & Hkeys).
    assert (agg_num_sets a ∈ num_sets <$> df) as Hin
      by (apply Hkeys, list_elem_of_fmap; eauto).
    apply run_all_and_aggregate_fst_Ok in Hrun as (_ & Hdf & _).
    rewrite Hdf in Hin. apply elem_of_num_sets_frames in Hin. lia. }
  assert (length (group_rows (agg_num_sets a) df) <= 1) as Hsmall.
  { apply run_all_and_aggregate_fst_Ok in Hrun as (_ & -> & _).
    rewrite length_group_rows_frames by done.
    etrans; [apply length_filter|].
    rewrite length_next_inputs, Hone. done. }
  unfold aggregate in Ha. apply list_elem_of_fmap in Ha as (key & -> & _).
  cbn in *. split_and!; apply std_of_small_group; by rewrite length_fmap.
Qed.

End SingleRun.

(** ** Concrete runs for the further properties *)

(** The relative error of 3 against 2 is a number. *)
Lemma relative_error_defined_witness :
  F64.is_finite (F64.of_nat 3) = true /\
  relative_error (F64.of_nat 3) (F64.of_nat 2) <> S754_nan.
Proof.
  split; [reflexivity|].
  apply (relative_error_defined (F64.of_nat 3) false 4503599627370496 (-51)).
  reflexivity.
Defined.

(** The first row of the end-to-end example: estimate 2, truth 2, error 0. *)
Lemma exact_estimate_no_error_witness :
  exists df df_agg row,
    fst (run_all_and_aggregate
           (Demo.simulator 1 [[[1; 2]; [2; 3]]]%nat Demo.exact_config
              None None)) = Ok (df, df_agg) /\
    row ∈ df /\
    true_cardinality row = 2 /\
    estimated_cardinality row = F64.of_nat 2 /\
    rel_error row = S754_zero false.
Proof.
  eexists _, _, _. split; [vm_compute; reflexivity|].
  split; [apply list_elem_of_here|]. split; [reflexivity|].
  split; [reflexivity|].
  eapply (exact_estimate_no_error
            (Demo.simulator 1 [[[1; 2]; [2; 3]]]%nat Demo.exact_config
               None None));
    [vm_compute; reflexivity|apply list_elem_of_here|cbn; lia
    |reflexivity|reflexivity].
Defined.

(** A row with a NaN relative error: its true cardinality is 0. *)
Lemma relative_error_nan_only_at_zero_witness :
  exists df df_agg row,
    fst (run_all_and_aggregate
           (Demo.simulator 1 [[[]; [7]]]%nat Demo.exact_config None None)) =
      Ok (df, df_agg) /\
    row ∈ df /\
    rel_error row = S754_nan /\
    (true_cardinality row = 0 \/
     F64.is_finite (estimated_cardinality row) = false).
Proof.
  eexists _, _, _. split; [vm_compute; reflexivity|].
  split; [apply list_elem_of_here|]. split; [reflexivity|].
  eapply (relative_error_nan_only_at_zero
            (Demo.simulator 1 [[[]; [7]]]%nat Demo.exact_config None None));
    [vm_compute; reflexivity|apply list_elem_of_here|reflexivity|reflexivity].
Defined.

(** The sets [{1, 2}] and [{2, 3}]: the true cardinalities 2 and 3. *)
Lemma true_cardinality_monotone_witness :
  exists df row0 row1,
    fst (run_one
           (Demo.simulator 1 [[[1; 2]; [2; 3; 2]]]%nat Demo.exact_config
              None None)) = Ok df /\
    df !! 0%nat = Some row0 /\ df !! 1%nat = Some row1 /\
    t_true_cardinality row0 <= t_true_cardinality row1.
Proof.
  eexists _, _, _. split; [vm_compute; reflexivity|].
  split; [reflexivity|]. split; [reflexivity|].
  eapply (true_cardinality_monotone
            (Demo.simulator 1 [[[1; 2]; [2; 3; 2]]]%nat Demo.exact_config
               None None) _ 0 1);
    [vm_compute; reflexivity|lia|reflexivity|reflexivity].
Defined.

(** Five identifiers were yielded in the two collections. *)
Lemma true_cardinality_at_most_yielded_witness :
  exists df row,
    fst (run_one
           (Demo.simulator 1 [[[1; 2]; [2; 3; 2]]]%nat Demo.exact_config
              None None)) = Ok df /\
    df !! 1%nat = Some row /\
    t_true_cardinality row <= 5.
Proof.
  eexists _, _. split; [vm_compute; reflexivity|]. split; [reflexivity|].
  eapply (true_cardinality_at_most_yielded
            (Demo.simulator 1 [[[1; 2]; [2; 3; 2]]]%nat Demo.exact_config
               None None) _ 1);
    [vm_compute; reflexivity|reflexivity].
Defined.

(** The same sets yielded in another order and with repetitions. *)
Lemma true_cardinality_of_sets_witness :
  exists df1 df2,
    fst (run_one
           (Demo.simulator 1 [[[1; 2]; [2; 3]]]%nat Demo.exact_config
              None None)) = Ok df1 /\
    fst (run_one
           (Demo.simulator 1 [[[2; 1; 1]; [3; 2; 3]]]%nat Demo.exact_config
              None None)) = Ok df2 /\
    t_true_cardinality <$> df1 = t_true_cardinality <$> df2.
Proof.
  eexists _, _. split; [vm_compute; reflexivity|].
  split; [vm_compute; reflexivity|].
  eapply (true_cardinality_of_sets
            (Demo.simulator 1 [[[1; 2]; [2; 3]]]%nat Demo.exact_config
               None None)
            (Demo.simulator 1 [[[2; 1; 1]; [3; 2; 3]]]%nat Demo.exact_config
               None None));
    [|vm_compute; reflexivity|vm_compute; reflexivity].
  repeat constructor; vm_compute; reflexivity.
Defined.

(** A generator that yields one more collection. *)
Lemma earlier_rows_unchanged_witness :
  exists df1 df2,
    fst (run_one
           (Demo.simulator 1 [[[1; 2]]]%nat Demo.noised_config None None)) =
      Ok df1 /\
    fst (run_one
           (Demo.simulator 1 [[[1; 2]; [2; 3]]]%nat Demo.noised_config
              None None)) = Ok df2 /\
    length df1 = 1 /\ length df2 = 2 /\
    take (length df1) df2 = df1.
Proof.
  eexists _, _. split; [vm_compute; reflexivity|].
  split; [vm_compute; reflexivity|].
  split; [reflexivity|]. split; [reflexivity|].
  eapply (earlier_rows_unchanged
            (Demo.simulator 1 [[[1; 2]]]%nat Demo.noised_config None None)
            (Demo.simulator 1 [[[1; 2]; [2; 3]]]%nat Demo.noised_config
               None None) _ _ [[2; 3]]%nat);
    [reflexivity|reflexivity|reflexivity
    |vm_compute; reflexivity|vm_compute; reflexivity].
Defined.

(** One run per call: the second call runs the second entry of the script,
    which yields two sets. *)
Lemma second_call_continues_witness :
  exists df df_agg,
    fst (run_all_and_aggregate
           (snd (run_all_and_aggregate
                   (Demo.simulator 1 [[[1]]; [[2]; [3]]]%nat Demo.exact_config
                      None None)))) = Ok (df, df_agg) /\
    length df = 2.
Proof.
  destruct (second_call_continues
    (Demo.simulator 1 [[[1]]; [[2]; [3]]]%nat Demo.exact_config None None))
    as (_ & _ & Hsecond).
  destruct (fst (run_all_and_aggregate
           (snd (run_all_and_aggregate
                   (Demo.simulator 1 [[[1]]; [[2]; [3]]]%nat Demo.exact_config
                      None None)))))
    as [[df df_agg]|e] eqn:E; [|vm_compute in E; discriminate].
  exists df, df_agg. split; [reflexivity|].
  rewrite (Hsecond df df_agg eq_refl). vm_compute. reflexivity.
Defined.

(** A negative run count. *)
Lemma no_runs_no_effect_witness :
  (num_runs (Demo.simulator (-3) [[[1]]]%nat Demo.exact_config
               (Some Demo.good_handle) None) <= 0)%Z /\
  fst (run_all_and_aggregate
         (Demo.simulator (-3) [[[1]]]%nat Demo.exact_config
            (Some Demo.good_handle) None)) =
    Raise (ValueError "No objects to concatenate") /\
  snd (run_all_and_aggregate
         (Demo.simulator (-3) [[[1]]]%nat Demo.exact_config
            (Some Demo.good_handle) None)) =
    Demo.simulator (-3) [[[1]]]%nat Demo.exact_config
      (Some Demo.good_handle) None.
Proof.
  split; [cbn; lia|].
  apply (no_runs_no_effect
           (Demo.simulator (-3) [[[1]]]%nat Demo.exact_config
              (Some Demo.good_handle) None)).
  cbn. lia.
Defined.

(** Two runs yielding no set and an empty first set, with two sinks: the
    division raises and no sink is written. *)
Lemma zero_division_exactly_witness :
  fst (run_all_and_aggregate
         (Demo.simulator 2 [[]; [[]; [7]]]%nat Demo.exact_config
            (Some Demo.good_handle) (Some Demo.good_handle))) =
    Raise ZeroDivisionError /\
  List.filter is_to_csv
    (calls (snd (run_all_and_aggregate
       (Demo.simulator 2 [[]; [[]; [7]]]%nat Demo.exact_config
          (Some Demo.good_handle) (Some Demo.good_handle))))) = [].
Proof.
  destruct (zero_division_exactly
    (Demo.simulator 2 [[]; [[]; [7]]]%nat Demo.exact_config
       (Some Demo.good_handle) (Some Demo.good_handle)))
    as [_ Hraises]; [reflexivity|].
  destruct Hraises as [Hresult Hcalls].
  { apply division_raises_true. vm_compute. reflexivity. }
  split; [exact Hresult|]. rewrite Hcalls. vm_compute. reflexivity.
Defined.

(** Two runs yielding one and two sets: three rows, three distinct keys. *)
Lemma run_index_num_sets_unique_witness :
  exists df df_agg,
    fst (run_all_and_aggregate
           (Demo.simulator 2 [[[1]]; [[2]; [3]]]%nat Demo.exact_config
              None None)) = Ok (df, df_agg) /\
    (fun row => (run_index row, num_sets row)) <$> df =
      [(0, 1); (1, 1); (1, 2)] /\
    NoDup ((fun row => (run_index row, num_sets row)) <$> df).
Proof.
  eexists _, _. split; [vm_compute; reflexivity|].
  split; [reflexivity|].
  eapply (run_index_num_sets_unique
            (Demo.simulator 2 [[[1]]; [[2]; [3]]]%nat Demo.exact_config
               None None)).
  vm_compute. reflexivity.
Defined.

(** Of these two runs only the second yielded two sets. *)
Lemma group_has_one_row_per_long_trial_witness :
  exists df df_agg,
    fst (run_all_and_aggregate
           (Demo.simulator 2 [[[1]]; [[2]; [3]]]%nat Demo.exact_config
              None None)) = Ok (df, df_agg) /\
    length (group_rows 1 df) = 2 /\
    length (group_rows 2 df) = 1.
Proof.
  destruct (fst (run_all_and_aggregate
           (Demo.simulator 2 [[[1]]; [[2]; [3]]]%nat Demo.exact_config
              None None)))
    as [[df df_agg]|e] eqn:E; [|vm_compute in E; discriminate].
  exists df, df_agg. split; [reflexivity|].
  split.
  - rewrite (group_has_one_row_per_long_trial _ df df_agg 1 E) by lia.
    vm_compute. reflexivity.
  - rewrite (group_has_one_row_per_long_trial _ df df_agg 2 E) by lia.
    vm_compute. reflexivity.
Defined.

(** The longest of these two trials has two sets: the keys 1 and 2. *)
Lemma aggregated_keys_witness :
  exists df df_agg,
    fst (run_all_and_aggregate
           (Demo.simulator 2 [[[1]]; [[2]; [3]]]%nat Demo.exact_config
              None None)) = Ok (df, df_agg) /\
    agg_num_sets <$> df_agg = [1; 2].
Proof.
  destruct (fst (run_all_and_aggregate
           (Demo.simulator 2 [[[1]]; [[2]; [3]]]%nat Demo.exact_config
              None None)))
    as [[df df_agg]|e] eqn:E; [|vm_compute in E; discriminate].
  exists df, df_agg. split; [reflexivity|].
  rewrite (aggregated_keys _ df df_agg E). vm_compute. reflexivity.
Defined.

(** One run of two sets: both aggregated rows have NaN deviations. *)
Lemma single_run_std_nan_witness :
  exists df df_agg a,
    fst (run_all_and_aggregate
           (Demo.simulator 1 [[[1; 2]; [2; 3]]]%nat Demo.exact_config
              None None)) = Ok (df, df_agg) /\
    a ∈ df_agg /\
    (estimated_cardinality_std a = S754_nan /\
     true_cardinality_std a = S754_nan /\
     relative_error_std a = S754_nan).
Proof.
  eexists _, _, _. split; [vm_compute; reflexivity|].
  split; [apply list_elem_of_here|].
  eapply (single_run_std_nan
            (Demo.simulator 1 [[[1; 2]; [2; 3]]]%nat Demo.exact_config
               None None));
    [reflexivity|vm_compute; reflexivity|apply list_elem_of_here].
Defined.
